(** * Books to Scrape crawler (scraper.py): model and properties

    A shallow embedding of [scraper.py]: the field extractor
    [get_book_data], the catalogue walk and the fetch dispatch of
    [scrape_books], and the persistence step [save_books_data].

    The external collaborators are represented by their observable
    behaviour: the HTTP session by a table from addresses to outcomes
    (the same address gets the same answer throughout a run), a parsed
    HTML document by the answers to the queries the program asks, the
    file system by a small state with an explicit fault table, and
    standard output by a list of events. The worker pool is represented
    by the order in which its tasks complete, chosen by a scheduler; the
    loops run on a counter of turns where the program has [while True]. *)

From Stdlib Require Import ZArith String Ascii List Lia.
From stdpp Require Import base option list gmap strings pretty.

Local Open Scope Z_scope.

(** ** Python values and dictionaries *)

(** [Union[str, int, None]], the value type of [BookData]. *)
Inductive Value : Type :=
| VStr (s : string)
| VInt (n : Z)
| VNone.

#[global] Instance Value_eq_dec : EqDecision Value.
Proof. solve_decision. Defined.

(** A Python [dict] with string keys: the entries in insertion order. *)
Definition pydict (V : Type) : Type := list (string * V).

(** [d.get(k)]. *)
Fixpoint dict_get {V : Type} (k : string) (d : pydict V) : option V :=
  match d with
  | [] => None
  | (k', v) :: d' => if String.eqb k k' then Some v else dict_get k d'
  end.

(** [d[k] = v]: an existing key keeps its position and takes the new
    value, a new key goes to the end. *)
Fixpoint dict_set {V : Type} (k : string) (v : V) (d : pydict V) : pydict V :=
  match d with
  | [] => [(k, v)]
  | (k', v') :: d' =>
      if String.eqb k k' then (k', v) :: d' else (k', v') :: dict_set k v d'
  end.

(** The items of a dict display [{k1: v1, ..., **other}], taken left to
    right into [d]. *)
Definition dict_update {V : Type} (d : pydict V) (items : list (string * V))
  : pydict V :=
  fold_left (fun acc kv => dict_set (fst kv) (snd kv) acc) items d.

Definition dict_keys {V : Type} (d : pydict V) : list string := map fst d.

(** Keys of a Python dict are pairwise distinct. *)
Definition dict_wf {V : Type} (d : pydict V) : Prop := NoDup (dict_keys d).

(** Truth value of a dict: [bool(d)]. *)
Definition dict_truthy {V : Type} (d : pydict V) : bool :=
  match d with [] => false | _ :: _ => true end.

(** Truth value of a list: [bool(l)]. *)
Definition list_truthy {A : Type} (l : list A) : bool :=
  match l with [] => false | _ :: _ => true end.

Definition BookData : Type := pydict Value.
Definition BookList : Type := list BookData.

(** ** Constants *)

Definition BASE_URL : string := "https://books.toscrape.com".

(** [CATALOGUE_URL_TEMPLATE.format(page)]. *)
Definition CATALOGUE_URL_TEMPLATE (page : Z) : string :=
  "https://books.toscrape.com/catalogue/page-" +:+ pretty page +:+ ".html".

Definition RATING_MAP : pydict Z :=
  [("One", 1); ("Two", 2); ("Three", 3); ("Four", 4); ("Five", 5)].

Definition MAX_WORKERS : Z := 10.

(** ** Text *)

(** A [str] is held as the bytes of its UTF-8 encoding, which is what
    the program reads from the network (the responses are decoded as
    UTF-8) and writes to its artifact (the file is opened with
    [encoding='utf-8']). Text without a UTF-8 encoding (a lone surrogate)
    is not represented. *)

(** The characters [str.strip()] removes: the ASCII ones (U+0009 to
    U+000D, U+001C to U+0020) ... *)
Definition is_py_space (c : ascii) : bool :=
  let n := nat_of_ascii c in
  ((9 <=? n)%nat && (n <=? 13)%nat) || ((28 <=? n)%nat && (n <=? 32)%nat).

(** ... those encoded on two bytes (U+0085, U+00A0) ... *)
Definition is_py_space2 (c1 c2 : ascii) : bool :=
  let n1 := nat_of_ascii c1 in
  let n2 := nat_of_ascii c2 in
  (n1 =? 194)%nat && ((n2 =? 133)%nat || (n2 =? 160)%nat).

(** ... and those encoded on three bytes (U+1680, U+2000 to U+200A,
    U+2028, U+2029, U+202F, U+205F, U+3000). *)
Definition is_py_space3 (c1 c2 c3 : ascii) : bool :=
  let n1 := nat_of_ascii c1 in
  let n2 := nat_of_ascii c2 in
  let n3 := nat_of_ascii c3 in
  ((n1 =? 225)%nat && (n2 =? 154)%nat && (n3 =? 128)%nat)
  || ((n1 =? 226)%nat && (n2 =? 128)%nat
      && (((128 <=? n3)%nat && (n3 <=? 138)%nat)
          || (n3 =? 168)%nat || (n3 =? 169)%nat || (n3 =? 175)%nat))
  || ((n1 =? 226)%nat && (n2 =? 129)%nat && (n3 =? 159)%nat)
  || ((n1 =? 227)%nat && (n2 =? 128)%nat && (n3 =? 128)%nat).

(** [s.lstrip()]. *)
Fixpoint lstrip (s : string) : string :=
  match s with
  | EmptyString => EmptyString
  | String c1 s1 =>
      if is_py_space c1 then lstrip s1
      else
        match s1 with
        | EmptyString => s
        | String c2 s2 =>
            if is_py_space2 c1 c2 then lstrip s2
            else
              match s2 with
              | EmptyString => s
              | String c3 s3 =>
                  if is_py_space3 c1 c2 c3 then lstrip s3 else s
              end
        end
  end.

(** [s.rstrip()] on the reversed string: the bytes of a character come
    last one first. *)
Fixpoint rstrip_rev (s : string) : string :=
  match s with
  | EmptyString => EmptyString
  | String c1 s1 =>
      if is_py_space c1 then rstrip_rev s1
      else
        match s1 with
        | EmptyString => s
        | String c2 s2 =>
            if is_py_space2 c2 c1 then rstrip_rev s2
            else
              match s2 with
              | EmptyString => s
              | String c3 s3 =>
                  if is_py_space3 c3 c2 c1 then rstrip_rev s3 else s
              end
        end
  end.

(** [s.strip()]. *)
Definition strip (s : string) : string :=
  String.rev (rstrip_rev (String.rev (lstrip s))).

(** ** Exceptions *)

(** The subclasses of [requests.RequestException] the session raises. *)
Inductive request_exception : Type :=
| ConnectionError
| Timeout
| HTTPError (status : Z)
| InvalidURL.

Inductive os_error : Type :=
| FileExistsError
| FileNotFoundError
| IsADirectoryError
| PermissionError
| NoSpaceLeft.

Inductive exn : Type :=
| RequestException (e : request_exception)
| OSError (e : os_error)
| OtherException (name : string).

(** [isinstance(exc, requests.RequestException)]. *)
Definition is_RequestException (e : exn) : bool :=
  match e with RequestException _ => true | _ => false end.

(** [isinstance(exc, (OSError, IOError))]; [RequestException] derives from
    [IOError]. *)
Definition is_OSError (e : exn) : bool :=
  match e with OSError _ | RequestException _ => true | _ => false end.

(** [isinstance(exc, Exception)]. *)
Definition is_Exception (e : exn) : bool := true.

(** ** Parsed documents *)

(** An attribute value: a string, or a list for multi-valued attributes
    such as [class]. *)
Inductive attr_value : Type :=
| AttrStr (s : string)
| AttrList (l : list string).

Record Tag : Type := mkTag {
  tag_text : string;
  tag_attrs : pydict attr_value
}.

(** A table row: [row.find('th')] and [row.find('td')]. *)
Record Row : Type := mkRow {
  row_th : option Tag;
  row_td : option Tag
}.

(** The document [BeautifulSoup(response.text, 'html.parser')], given by
    the answers to the queries of the program. A text the parser gives
    up on is not represented. *)
Record Soup : Type := mkSoup {
  (* soup.find('h1') *)
  find_h1 : option Tag;
  (* soup.find('p', class_='price_color') *)
  find_p_price_color : option Tag;
  (* soup.find('p', class_='star-rating') *)
  find_p_star_rating : option Tag;
  (* soup.find('p', class_='instock availability') *)
  find_p_instock : option Tag;
  (* soup.find('div', id='product_description'), with the answer of its
     find_next_sibling('p') *)
  find_div_product_description : option (option Tag);
  (* soup.find('table', class_='table table-striped'), with the answer of
     its find_all('tr') *)
  find_table_striped : option (list Row);
  (* soup.select('article.product_pod h3 a') *)
  select_product_links : list Tag
}.

Record Response : Type := mkResponse {
  status_code : Z;
  soup_of : Soup
}.

(** ** The world: network, file system, output *)

Inductive message : Type :=
| MsgStart
| MsgSiteAvailable
| MsgSiteUnavailable (exc : exn)
| MsgPageUnavailable (page : Z)
| MsgPageEmpty (page : Z)
| MsgFoundOnPage (n : nat) (page : Z)
| MsgPageLoadError (page_url : string) (exc : exn)
| MsgTotalFound (n : nat)
| MsgNothingFound
| MsgLaunch (workers : Z) (total : nat)
| MsgThreadNoData (url : string)
| MsgThreadError (url : string) (exc : exn)
| MsgProgress (i : Z) (total : nat) (failed : Z)
| MsgBlank
| MsgRule
| MsgDone
| MsgSummary (parsed : nat) (failed : Z)
| MsgBookLoadError (book_url : string) (exc : exn)
| MsgSaved (n : nat) (filepath : string)
| MsgSaveError (exc : exn).

Inductive event : Type :=
| EvGet (url : string)
| EvPrint (m : message).

Inductive fs_op : Type :=
| OpMakedirs (path : string)
| OpOpenWrite (path : string)
| OpWrite (path : string).

Record FS : Type := mkFS {
  fs_dirs : gset string;
  fs_files : gmap string string;
  (* the fault, if any, the operating system reports for an operation:
     permissions, missing parent directory, full disk *)
  fs_fault : fs_op -> option os_error
}.

Record World : Type := mkWorld {
  (* what session.get(url, timeout=DEFAULT_TIMEOUT) does *)
  w_net : string -> exn + Response;
  w_fs : FS;
  (* requests made and lines printed, oldest first *)
  w_events : list event
}.

(** ** Computations *)

Inductive result (A : Type) : Type :=
| Ok (a : A)
| Raise (e : exn)
| OutOfFuel.
Arguments Ok {A} a.
Arguments Raise {A} e.
Arguments OutOfFuel {A}.

Definition M (A : Type) : Type := World -> result A * World.

#[global] Instance M_ret : MRet M := fun A a w => (Ok a, w).

#[global] Instance M_bind : MBind M := fun A B f m w =>
  match m w with
  | (Ok a, w') => f a w'
  | (Raise e, w') => (Raise e, w')
  | (OutOfFuel, w') => (OutOfFuel, w')
  end.

Definition raise {A : Type} (e : exn) : M A := fun w => (Raise e, w).

Definition out_of_fuel {A : Type} : M A := fun w => (OutOfFuel, w).

(** [try: body  except <class> as exc: handler exc]. *)
Definition try_except {A : Type} (body : M A) (class : exn -> bool)
  (handler : exn -> M A) : M A := fun w =>
  match body w with
  | (Raise e, w') => if class e then handler e w' else (Raise e, w')
  | r => r
  end.

Definition emit (ev : event) : M unit := fun w =>
  (Ok tt, mkWorld (w_net w) (w_fs w) (w_events w ++ [ev])).

Definition print (m : message) : M unit := emit (EvPrint m).

(** [session.get(url, timeout=DEFAULT_TIMEOUT)]. *)
Definition session_get (url : string) : M Response := fun w =>
  match emit (EvGet url) w with
  | (_, w') =>
      match w_net w url with
      | inl e => (Raise e, w')
      | inr r => (Ok r, w')
      end
  end.

(** [response.raise_for_status()] of requests: [HTTPError] for a client
    or server error status. *)
Definition raise_for_status (response : Response) : M unit :=
  if (400 <=? status_code response) && (status_code response <? 600)
  then raise (RequestException (HTTPError (status_code response)))
  else mret tt.

(** ** The field extractor: [get_book_data] *)

(** [element.text.strip() if element else None]; a [Tag] is always true. *)
Definition text_or_None (element : option Tag) : Value :=
  match element with
  | Some t => VStr (strip (tag_text t))
  | None => VNone
  end.

(** The local [rating] of [get_book_data]. *)
Definition extract_rating (soup : Soup) : Z :=
  match find_p_star_rating soup with
  | Some rating_element =>
      match dict_get "class" (tag_attrs rating_element) with
      | Some (AttrList rating_classes) =>
          if 1 <? Z.of_nat (length rating_classes)
          then match rating_classes !! 1%nat with
               | Some c => default 0 (dict_get c RATING_MAP)
               | None => 0
               end
          else 0
      | _ => 0
      end
  | None => 0
  end.

(** The local [description] of [get_book_data]. *)
Definition extract_description (soup : Soup) : Value :=
  match find_div_product_description soup with
  | Some description_element => text_or_None description_element
  | None => VNone
  end.

(** One turn of the loop over the table rows. *)
Definition info_row (info : pydict string) (row : Row) : pydict string :=
  match row_th row, row_td row with
  | Some th_element, Some td_element =>
      dict_set (strip (tag_text th_element)) (strip (tag_text td_element)) info
  | _, _ => info
  end.

(** The local [info] of [get_book_data]. *)
Definition extract_info (soup : Soup) : pydict string :=
  match find_table_striped soup with
  | Some rows => fold_left info_row rows []
  | None => []
  end.

Definition info_items (info : pydict string) : list (string * Value) :=
  map (fun kv => (fst kv, VStr (snd kv))) info.

(** The dict display returned on success. *)
Definition book_record (soup : Soup) (book_url : string) : BookData :=
  let title := text_or_None (find_h1 soup) in
  let price := text_or_None (find_p_price_color soup) in
  let rating := extract_rating soup in
  let stock := text_or_None (find_p_instock soup) in
  let description := extract_description soup in
  let info := extract_info soup in
  dict_update []
    ([("title", title);
      ("price", price);
      ("rating", VInt rating);
      ("stock", stock);
      ("description", description);
      ("url", VStr book_url)] ++ info_items info).

Definition get_book_data (book_url : string) : M BookData :=
  try_except
    (response ← session_get book_url;
     _ ← raise_for_status response;
     mret (book_record (soup_of response) book_url))
    is_RequestException
    (fun exc => _ ← print (MsgBookLoadError book_url exc); mret []).

(** ** [save_books_data] *)

(** [os.makedirs(path, exist_ok=True)]. *)
Definition os_makedirs (path : string) : M unit := fun w =>
  let fs := w_fs w in
  match fs_fault fs (OpMakedirs path) with
  | Some e => (Raise (OSError e), w)
  | None =>
      if decide (path ∈ fs_dirs fs) then (Ok tt, w)
      else match fs_files fs !! path with
           | Some _ => (Raise (OSError FileExistsError), w)
           | None =>
               (Ok tt, mkWorld (w_net w)
                          (mkFS ({[path]} ∪ fs_dirs fs) (fs_files fs) (fs_fault fs))
                          (w_events w))
           end
  end.

(** [os.path.join('artifacts', filename)]. *)
Definition os_path_join (dir filename : string) : string :=
  match filename with
  | String "/" _ => filename
  | _ => dir +:+ "/" +:+ filename
  end.

(** A name with a NUL character: [open] refuses it with a [ValueError]
    before the operating system is asked. *)
Fixpoint has_nul (s : string) : bool :=
  match s with
  | EmptyString => false
  | String c s' => Ascii.eqb c "000" || has_nul s'
  end.

(** A path that names a directory whatever the file system holds: it
    ends with a slash, or its last component is [.] or [..]. *)
Definition names_directory (filepath : string) : bool :=
  match String.rev filepath with
  | String "/" _ => true
  | String "." (String "/" _) => true
  | String "." (String "." (String "/" _)) => true
  | "." => true
  | ".." => true
  | _ => false
  end.

(** [open(filepath, 'w', encoding='utf-8')]: the file is created or
    truncated. A fault the operating system reports comes first; a path
    that is a directory cannot be opened for writing. Paths are told
    apart as they are written. *)
Definition open_w (filepath : string) : M unit := fun w =>
  let fs := w_fs w in
  if has_nul filepath then (Raise (OtherException "ValueError"), w)
  else
    match fs_fault fs (OpOpenWrite filepath) with
    | Some e => (Raise (OSError e), w)
    | None =>
        if decide (filepath ∈ fs_dirs fs) then (Raise (OSError IsADirectoryError), w)
        else if names_directory filepath then (Raise (OSError IsADirectoryError), w)
        else (Ok tt, mkWorld (w_net w)
                       (mkFS (fs_dirs fs) (<[filepath := EmptyString]> (fs_files fs))
                          (fs_fault fs))
                       (w_events w))
    end.

(** Writing [data] to the open file and closing it. *)
Definition file_write (filepath data : string) : M unit := fun w =>
  let fs := w_fs w in
  match fs_fault fs (OpWrite filepath) with
  | Some e => (Raise (OSError e), w)
  | None =>
      (Ok tt, mkWorld (w_net w)
                (mkFS (fs_dirs fs)
                   (alter (fun old => old +:+ data) filepath (fs_files fs))
                   (fs_fault fs))
                (w_events w))
  end.

(** *** [json.dump(book_list, file, ensure_ascii=False, indent=4)] *)

Definition dquote : ascii := "034"%char.
Definition backslash : ascii := "092"%char.
Definition newline : ascii := "010"%char.

Definition hex_digit (n : nat) : ascii :=
  match n with
  | 0 => "0" | 1 => "1" | 2 => "2" | 3 => "3" | 4 => "4" | 5 => "5"
  | 6 => "6" | 7 => "7" | 8 => "8" | 9 => "9" | 10 => "a" | 11 => "b"
  | 12 => "c" | 13 => "d" | 14 => "e" | _ => "f"
  end%nat%char.

(** The replacement of one character inside a JSON string: the quote, the
    backslash and the control characters are escaped, everything else is
    kept as it is. *)
Definition json_escape_char (c : ascii) : string :=
  let n := nat_of_ascii c in
  if Ascii.eqb c dquote then String backslash (String dquote EmptyString)
  else if Ascii.eqb c backslash then String backslash (String backslash EmptyString)
  else if (n =? 8)%nat then String backslash "b"
  else if (n =? 12)%nat then String backslash "f"
  else if (n =? 10)%nat then String backslash "n"
  else if (n =? 13)%nat then String backslash "r"
  else if (n =? 9)%nat then String backslash "t"
  else if (n <? 32)%nat then
    String backslash
      (String "u" (String "0" (String "0"
         (String (hex_digit (n / 16)) (String (hex_digit (n mod 16)) EmptyString)))))
  else String c EmptyString.

Fixpoint json_escape (s : string) : string :=
  match s with
  | EmptyString => EmptyString
  | String c s' => json_escape_char c +:+ json_escape s'
  end.

Definition json_string (s : string) : string :=
  String dquote (json_escape s +:+ String dquote EmptyString).

Definition json_value (v : Value) : string :=
  match v with
  | VStr s => json_string s
  | VInt n => pretty n
  | VNone => "null"
  end.

(** One [key: value] line of a record, at depth two. *)
Definition json_member (kv : string * Value) : string :=
  "        " +:+ json_string (fst kv) +:+ ": " +:+ json_value (snd kv).

Fixpoint json_members (d : BookData) : string :=
  match d with
  | [] => EmptyString
  | kv :: d' =>
      match d' with
      | [] => json_member kv
      | _ :: _ => json_member kv +:+ String "," (String newline (json_members d'))
      end
  end.

(** A record, at depth one. *)
Definition json_dict (d : BookData) : string :=
  match d with
  | [] => "{}"
  | _ :: _ =>
      String "{" (String newline (json_members d +:+ String newline "    }"))
  end.

Fixpoint json_items (l : BookList) : string :=
  match l with
  | [] => EmptyString
  | d :: l' =>
      match l' with
      | [] => "    " +:+ json_dict d
      | _ :: _ =>
          "    " +:+ json_dict d +:+ String "," (String newline (json_items l'))
      end
  end.

Definition json_dumps (book_list : BookList) : string :=
  match book_list with
  | [] => "[]"
  | _ :: _ =>
      String "[" (String newline (json_items book_list +:+ String newline "]"))
  end.

Definition save_books_data (book_list : BookList) (filename : string) : M unit :=
  try_except
    (let artifacts_dir := "artifacts" in
     _ ← os_makedirs artifacts_dir;
     let filepath := os_path_join artifacts_dir filename in
     _ ← open_w filepath;
     _ ← file_write filepath (json_dumps book_list);
     print (MsgSaved (length book_list) filepath))
    is_OSError
    (fun exc => print (MsgSaveError exc)).

(** ** [scrape_books] *)

(** [max_pages and page > max_pages]. *)
Definition cap_reached (max_pages : option Z) (page : Z) : bool :=
  match max_pages with
  | None => false
  | Some m => negb (m =? 0) && (m <? page)
  end.

Inductive loop_ctl : Type := Break | Continue.

(** Futures in the order [as_completed] yields them. A future is
    represented by the address it was submitted for, one entry per
    submitted task; at each step [sched] chooses which of the pending
    tasks completes next. *)
Fixpoint as_completed_from (n : nat) (sched : nat -> nat) (step : nat)
  (pending : list string) : list string :=
  match n with
  | O => []
  | S n' =>
      match pending with
      | [] => []
      | _ :: _ =>
          let i := (sched step mod length pending)%nat in
          match pending !! i with
          | Some url =>
              url :: as_completed_from n' sched (S step) (delete i pending)
          | None => []
          end
      end
  end.

Definition as_completed (sched : nat -> nat) (futures : list string)
  : list string :=
  as_completed_from (length futures) sched 0 futures.

(** The loop over the completed futures. A task's request and output are
    recorded when its future is yielded: one of the interleavings the
    pool allows, the workers issuing their requests in an order of their
    own. What is stated about the requests of the dispatch is stated up
    to their order. *)
Fixpoint collect_results (total : nat) (completed : list string) (i : Z)
  (parsed_books : BookList) (failed_count : Z) : M (BookList * Z) :=
  match completed with
  | [] => mret (parsed_books, failed_count)
  | url :: rest =>
      st ← try_except
        (book_data ← get_book_data url;
         if dict_truthy book_data
         then mret (parsed_books ++ [book_data], failed_count)
         else _ ← print (MsgThreadNoData url);
              mret (parsed_books, failed_count + 1))
        is_Exception
        (fun exc => _ ← print (MsgThreadError url exc);
                    mret (parsed_books, failed_count + 1));
      _ ← print (MsgProgress i total (snd st));
      collect_results total rest (i + 1) (fst st) (snd st)
  end.

Section Crawl.

(** [urllib.parse.urljoin], for the joins it returns. An [href] it
    refuses with a [ValueError] is not represented: what is stated about
    the addresses a walk returns is stated for the walks that return. *)
Variable urljoin : string -> string -> string.

(** The loop over [book_links] of one catalogue page. *)
Fixpoint link_urls (page_url : string) (book_links : list Tag) : list string :=
  match book_links with
  | [] => []
  | link :: rest =>
      match dict_get "href" (tag_attrs link) with
      | Some (AttrStr href_value) =>
          urljoin page_url href_value :: link_urls page_url rest
      | _ => link_urls page_url rest
      end
  end.

(** The body of the [while] loop after the page-cap test. *)
Definition walk_page (page : Z) (all_book_urls : list string)
  : M (loop_ctl * list string) :=
  let page_url := CATALOGUE_URL_TEMPLATE page in
  try_except
    (response ← session_get page_url;
     if negb (status_code response =? 200)
     then _ ← print (MsgPageUnavailable page); mret (Break, all_book_urls)
     else
       let book_links := select_product_links (soup_of response) in
       match book_links with
       | [] => _ ← print (MsgPageEmpty page); mret (Break, all_book_urls)
       | _ :: _ =>
           let all_book_urls := all_book_urls ++ link_urls page_url book_links in
           _ ← print (MsgFoundOnPage (length book_links) page);
           mret (Continue, all_book_urls)
       end)
    is_RequestException
    (fun exc => _ ← print (MsgPageLoadError page_url exc);
                mret (Break, all_book_urls)).

(** The [while True] loop; [fuel] bounds the number of turns. *)
Fixpoint collect_urls (fuel : nat) (max_pages : option Z) (page : Z)
  (all_book_urls : list string) : M (list string) :=
  match fuel with
  | O => out_of_fuel
  | S fuel' =>
      if cap_reached max_pages page then mret all_book_urls
      else
        st ← walk_page page all_book_urls;
        match fst st with
        | Break => mret (snd st)
        | Continue => collect_urls fuel' max_pages (page + 1) (snd st)
        end
  end.

(** The reachability check of the site root: [true] when it passes. *)
Definition check_site : M bool :=
  try_except
    (response ← session_get BASE_URL;
     _ ← raise_for_status response;
     _ ← print MsgSiteAvailable;
     mret true)
    is_RequestException
    (fun exc => _ ← print (MsgSiteUnavailable exc); mret false).

Definition scrape_books (fuel : nat) (sched : nat -> nat) (is_save : bool)
  (max_pages : option Z) : M BookList :=
  _ ← print MsgStart;
  available ← check_site;
  if negb available then mret []
  else
    all_book_urls ← collect_urls fuel max_pages 1 [];
    _ ← print (MsgTotalFound (length all_book_urls));
    match all_book_urls with
    | [] => _ ← print MsgNothingFound; mret []
    | _ :: _ =>
        let total_books := length all_book_urls in
        _ ← print (MsgLaunch MAX_WORKERS total_books);
        st ← collect_results total_books (as_completed sched all_book_urls) 1 [] 0;
        let parsed_books := fst st in
        let failed_count := snd st in
        _ ← print MsgBlank;
        _ ← print MsgRule;
        _ ← print MsgDone;
        _ ← print (MsgSummary (length parsed_books) failed_count);
        _ ← (if is_save && list_truthy parsed_books
             then save_books_data parsed_books "books_data.txt"
             else mret tt);
        mret parsed_books
    end.

End Crawl.

(** ** Reading the artifact back: [json.load]

    The program never reads its artifact; the reader below is the
    counterpart of [json_dumps] for the documents it produces: an array
    of objects whose values are strings, integers or [null]. *)

Definition is_json_ws (c : ascii) : bool :=
  let n := nat_of_ascii c in
  (n =? 32)%nat || (n =? 9)%nat || (n =? 10)%nat || (n =? 13)%nat.

Fixpoint skip_ws (s : string) : string :=
  match s with
  | EmptyString => EmptyString
  | String c s' => if is_json_ws c then skip_ws s' else s
  end.

Definition hex_value (c : ascii) : option nat :=
  let n := nat_of_ascii c in
  if (48 <=? n)%nat && (n <=? 57)%nat then Some (n - 48)%nat
  else if (97 <=? n)%nat && (n <=? 102)%nat then Some (n - 87)%nat
  else if (65 <=? n)%nat && (n <=? 70)%nat then Some (n - 55)%nat
  else None.

(** The character a four-digit [\u] escape denotes, for the ASCII range. *)
Definition unicode_escape (h1 h2 h3 h4 : ascii) : option ascii :=
  a ← hex_value h1; b ← hex_value h2; c ← hex_value h3; d ← hex_value h4;
  let code := (((a * 16 + b) * 16 + c) * 16 + d)%nat in
  if (code <? 128)%nat then Some (ascii_of_nat code) else None.

(** The character a one-letter escape denotes. *)
Definition simple_escape (e : ascii) : option ascii :=
  if Ascii.eqb e dquote then Some dquote
  else if Ascii.eqb e backslash then Some backslash
  else if Ascii.eqb e "/" then Some "/"%char
  else if Ascii.eqb e "b" then Some "008"%char
  else if Ascii.eqb e "f" then Some "012"%char
  else if Ascii.eqb e "n" then Some "010"%char
  else if Ascii.eqb e "r" then Some "013"%char
  else if Ascii.eqb e "t" then Some "009"%char
  else None.

(** The contents of a string literal after its opening quote, and the
    text after its closing quote. *)
Fixpoint parse_string_body (s : string) : option (string * string) :=
  match s with
  | EmptyString => None
  | String c s1 =>
      if Ascii.eqb c dquote then Some (EmptyString, s1)
      else if Ascii.eqb c backslash then
        match s1 with
        | EmptyString => None
        | String e s2 =>
            if Ascii.eqb e "u" then
              match s2 with
              | String h1 (String h2 (String h3 (String h4 s3))) =>
                  ch ← unicode_escape h1 h2 h3 h4;
                  r ← parse_string_body s3;
                  Some (String ch (fst r), snd r)
              | _ => None
              end
            else
              ch ← simple_escape e;
              r ← parse_string_body s2;
              Some (String ch (fst r), snd r)
        end
      else if (nat_of_ascii c <? 32)%nat then None
      else
        r ← parse_string_body s1;
        Some (String c (fst r), snd r)
  end.

Definition digit_value (c : ascii) : option N :=
  let n := nat_of_ascii c in
  if (48 <=? n)%nat && (n <=? 57)%nat then Some (N.of_nat (n - 48)) else None.

Fixpoint parse_digits (acc : N) (s : string) : N * string :=
  match s with
  | EmptyString => (acc, s)
  | String c s' =>
      match digit_value c with
      | Some d => parse_digits (acc * 10 + d)%N s'
      | None => (acc, s)
      end
  end.

Definition parse_nat (s : string) : option (N * string) :=
  match s with
  | EmptyString => None
  | String c _ =>
      match digit_value c with
      | Some _ => Some (parse_digits 0%N s)
      | None => None
      end
  end.

Definition parse_int (s : string) : option (Z * string) :=
  match s with
  | EmptyString => None
  | String c s' =>
      if Ascii.eqb c "-"
      then r ← parse_nat s'; Some (- Z.of_N (fst r), snd r)
      else r ← parse_nat s; Some (Z.of_N (fst r), snd r)
  end.

Definition parse_value (s : string) : option (Value * string) :=
  match s with
  | EmptyString => None
  | String c s' =>
      if Ascii.eqb c dquote
      then r ← parse_string_body s'; Some (VStr (fst r), snd r)
      else if Ascii.eqb c "n" then
        match s' with
        | String "u" (String "l" (String "l" s'')) => Some (VNone, s'')
        | _ => None
        end
      else r ← parse_int s; Some (VInt (fst r), snd r)
  end.

(** [expect c s]: the text after [c], when [s] starts with [c]. *)
Definition expect (c : ascii) (s : string) : option string :=
  match s with
  | EmptyString => None
  | String c' s' => if Ascii.eqb c c' then Some s' else None
  end.

(** The members of an object up to its closing brace; a repeated key
    keeps its first position and takes the last value, as in a [dict]. *)
Fixpoint parse_members (fuel : nat) (acc : BookData) (s : string)
  : option (BookData * string) :=
  match fuel with
  | O => None
  | S fuel' =>
      s1 ← expect dquote (skip_ws s);
      k ← parse_string_body s1;
      s2 ← expect ":" (skip_ws (snd k));
      v ← parse_value (skip_ws s2);
      let acc := dict_set (fst k) (fst v) acc in
      match skip_ws (snd v) with
      | EmptyString => None
      | String c s3 =>
          if Ascii.eqb c "," then parse_members fuel' acc s3
          else if Ascii.eqb c "}" then Some (acc, s3)
          else None
      end
  end.

Definition parse_dict (fuel : nat) (s : string) : option (BookData * string) :=
  s1 ← expect "{" (skip_ws s);
  match expect "}" (skip_ws s1) with
  | Some s2 => Some ([], s2)
  | None => parse_members fuel [] s1
  end.

(** The elements of the array up to its closing bracket. *)
Fixpoint parse_items (fuel : nat) (s : string) : option (BookList * string) :=
  match fuel with
  | O => None
  | S fuel' =>
      d ← parse_dict fuel s;
      match skip_ws (snd d) with
      | EmptyString => None
      | String c s1 =>
          if Ascii.eqb c "," then
            r ← parse_items fuel' s1; Some (fst d :: fst r, snd r)
          else if Ascii.eqb c "]" then Some ([fst d], s1)
          else None
      end
  end.

(** [json.loads(text)] for the documents above. *)
Definition json_loads (text : string) : option BookList :=
  let fuel := String.length text in
  s1 ← expect "[" (skip_ws text);
  r ← match expect "]" (skip_ws s1) with
      | Some s2 => Some ([], s2)
      | None => parse_items fuel s1
      end;
  match skip_ws (snd r) with
  | EmptyString => Some (fst r)
  | String _ _ => None
  end.

(** ** Notions used in the statements *)

(** The keys the dict display of [get_book_data] always writes. *)
Definition fixed_fields : list string :=
  ["title"; "price"; "rating"; "stock"; "description"; "url"].

(** The key a table row contributes, when it has both cells. *)
Definition row_label (row : Row) : option string :=
  match row_th row, row_td row with
  | Some th_element, Some _ => Some (strip (tag_text th_element))
  | _, _ => None
  end.

(** The rating vocabulary as the specification words it: a tag outside
    the vocabulary, or no tag, gives 0. *)
Definition rating_vocabulary (tag : option string) : Z :=
  match tag with
  | Some "One" => 1
  | Some "Two" => 2
  | Some "Three" => 3
  | Some "Four" => 4
  | Some "Five" => 5
  | _ => 0
  end.

(** The second class tag of the star-rating element, if there is one. *)
Definition second_class_tag (soup : Soup) : option string :=
  match find_p_star_rating soup with
  | Some rating_element =>
      match dict_get "class" (tag_attrs rating_element) with
      | Some (AttrList rating_classes) => rating_classes !! 1%nat
      | _ => None
      end
  | None => None
  end.

(** The fixed part of the dict display. *)
Definition fixed_record (soup : Soup) (book_url : string) : BookData :=
  [("title", text_or_None (find_h1 soup));
   ("price", text_or_None (find_p_price_color soup));
   ("rating", VInt (extract_rating soup));
   ("stock", text_or_None (find_p_instock soup));
   ("description", extract_description soup);
   ("url", VStr book_url)].

(** An HTTP status [raise_for_status] raises for. *)
Definition error_status (status : Z) : Prop := 400 <= status < 600.

(** The fetch of [url] fails: the session raises a [RequestException]
    (transport error, timeout) or answers with an error status. *)
Definition fetch_fails (w : World) (url : string) : Prop :=
  match w_net w url with
  | inl e => is_RequestException e = true
  | inr r => error_status (status_code r)
  end.

(** The fetch of [url] delivers a document: a response whose status is
    not an error status. *)
Definition fetch_succeeds (w : World) (url : string) (r : Response) : Prop :=
  w_net w url = inr r /\ ~ error_status (status_code r).

(** What a task submitted for [url] produces. *)
Definition task_result (w : World) (url : string) : result BookData :=
  fst (get_book_data url w).

(** The record of a task that returned data. *)
Definition task_record (w : World) (url : string) : option BookData :=
  match task_result w url with
  | Ok book_data => if dict_truthy book_data then Some book_data else None
  | _ => None
  end.

(** A task that raised or returned the empty dict. *)
Definition task_failed (w : World) (url : string) : bool :=
  match task_record w url with
  | Some _ => false
  | None => true
  end.

(** The requests among a list of events. *)
Definition requests (evs : list event) : list string :=
  omap (fun ev => match ev with EvGet url => Some url | _ => None end) evs.

(** The links of catalogue page [page], when the walk goes on after it:
    status 200 and at least one link. *)
Definition page_links (w : World) (page : Z) : option (list Tag) :=
  match w_net w (CATALOGUE_URL_TEMPLATE page) with
  | inl _ => None
  | inr r =>
      if status_code r =? 200
      then match select_product_links (soup_of r) with
           | [] => None
           | links => Some links
           end
      else None
  end.

(** The walk ends at catalogue page [page]: the request raises a
    [RequestException], the status is not 200, or there is no link. *)
Definition page_stops (w : World) (page : Z) : Prop :=
  match w_net w (CATALOGUE_URL_TEMPLATE page) with
  | inl e => is_RequestException e = true
  | inr r => status_code r <> 200 \/ select_product_links (soup_of r) = []
  end.

(** The addresses catalogue page [page] contributes. *)
Definition page_urls (urljoin : string -> string -> string) (w : World)
  (page : Z) : list string :=
  match page_links w page with
  | Some links => link_urls urljoin (CATALOGUE_URL_TEMPLATE page) links
  | None => []
  end.

(** [n] page numbers from [page] on. *)
Fixpoint page_range (page : Z) (n : nat) : list Z :=
  match n with
  | O => []
  | S n' => page :: page_range (page + 1) n'
  end.

(** The text after a number does not go on with a digit. *)
Definition no_digit_head (s : string) : Prop :=
  match s with
  | EmptyString => True
  | String c _ => digit_value c = None
  end.

(** One for each record and one for each of its members: the turns the
    reader needs. *)
Fixpoint json_size (l : BookList) : nat :=
  match l with
  | [] => O
  | d :: l' => S (length d + json_size l')
  end.



(** The [OSError] the steps of [save_books_data] meet first on file
    system [fs], if any: creating [artifacts], opening the destination,
    writing to it. *)
Definition save_fault (fs : FS) (filename : string) : option os_error :=
  let filepath := os_path_join "artifacts" filename in
  match fs_fault fs (OpMakedirs "artifacts") with
  | Some e => Some e
  | None =>
      if decide (("artifacts" ∉ fs_dirs fs) /\ is_Some (fs_files fs !! "artifacts"))
      then Some FileExistsError
      else
        match fs_fault fs (OpOpenWrite filepath) with
        | Some e => Some e
        | None =>
            if decide (filepath ∈ ({["artifacts"]} ∪ fs_dirs fs : gset string))
            then Some IsADirectoryError
            else if names_directory filepath then Some IsADirectoryError
            else fs_fault fs (OpWrite filepath)
        end
  end.

(** ** Sample documents and worlds *)

Definition empty_soup : Soup := mkSoup None None None None None None [].

Definition plain (text : string) : Tag := mkTag text [].

Definition star_rating (classes : list string) : Tag :=
  mkTag EmptyString [("class", AttrList classes)].

Definition sample_book : Soup :=
  mkSoup (Some (plain " A Light in the Attic "))
    (Some (plain "51.77"))
    (Some (star_rating ["star-rating"; "Three"]))
    (Some (plain " In stock (22 available) "))
    (Some (Some (plain "It's hard to imagine a world without it.")))
    (Some [mkRow (Some (plain "UPC")) (Some (plain "a897fe39b1053632"));
           mkRow (Some (plain "Product Type")) (Some (plain "Books"))])
    [].

(** A detail page whose table has rows labelled like fixed fields. *)
Definition colliding_book : Soup :=
  mkSoup (Some (plain "Title")) (Some (plain "10.00"))
    (Some (star_rating ["star-rating"; "Two"])) None None
    (Some [mkRow (Some (plain "url")) (Some (plain "elsewhere"));
           mkRow (Some (plain " price ")) (Some (plain "free"));
           mkRow (Some (plain "UPC")) (Some (plain "0000"))])
    [].

(** A detail page whose table has a row labelled with a capital. *)
Definition capital_label_book : Soup :=
  mkSoup (Some (plain "Title")) (Some (plain "10.00")) None None None
    (Some [mkRow (Some (plain "Price")) (Some (plain "99.99"))])
    [].

(** A detail page whose table has a row labelled [rating]. *)
Definition rated_book : Soup :=
  mkSoup (Some (plain "Title")) (Some (plain "10.00"))
    (Some (star_rating ["star-rating"; "Three"])) None None
    (Some [mkRow (Some (plain "rating")) (Some (plain "five stars"))])
    [].

Definition link (href : string) : Tag := mkTag EmptyString [("href", AttrStr href)].

Definition sample_catalogue : Soup :=
  mkSoup None None None None None None
    [link "a-light-in-the-attic_1000/index.html";
     link "tipping-the-velvet_999/index.html"].

Definition sample_urljoin (page_url href : string) : string :=
  "https://books.toscrape.com/catalogue/" +:+ href.

Definition book1_url : string :=
  "https://books.toscrape.com/catalogue/a-light-in-the-attic_1000/index.html".

Definition book2_url : string :=
  "https://books.toscrape.com/catalogue/tipping-the-velvet_999/index.html".

(** A site with one catalogue page of two books; the second book page
    answers 404, every other address 404 as well. *)
Definition sample_net (url : string) : exn + Response :=
  if String.eqb url BASE_URL then inr (mkResponse 200 empty_soup)
  else if String.eqb url (CATALOGUE_URL_TEMPLATE 1) then
    inr (mkResponse 200 sample_catalogue)
  else if String.eqb url book1_url then inr (mkResponse 200 sample_book)
  else if String.eqb url "https://books.toscrape.com/collide" then
    inr (mkResponse 200 colliding_book)
  else if String.eqb url "https://books.toscrape.com/not-modified" then
    inr (mkResponse 304 empty_soup)
  else if String.eqb url "https://books.toscrape.com/slow" then
    inl (RequestException Timeout)
  else inr (mkResponse 404 empty_soup).

(** No site at all: every request ends in a connection error. *)
Definition offline_net (url : string) : exn + Response :=
  inl (RequestException ConnectionError).

Definition working_fs : FS := mkFS ∅ ∅ (fun _ => None).


Definition sample_world : World := mkWorld sample_net working_fs [].

Definition offline_world : World := mkWorld offline_net working_fs [].


(** A site that answers every address with [rated_book]. *)
Definition rated_world : World :=
  mkWorld (fun _ => inr (mkResponse 200 rated_book)) working_fs [].

Definition sample_books : BookList :=
  [[("title", VStr "A Light in the Attic"); ("rating", VInt 3); ("stock", VNone)];
   [("title", VStr "Tipping the Velvet"); ("rating", VInt 1)]].

(** ** [run_scraper] *)

(** The lines [run_scraper] prints itself. *)
Inductive run_message : Type :=
| MsgRunStart (now : string)
| MsgRunSuccess (n : nat)
| MsgRunNoData
| MsgRunError (exc : exn).

(** [run_scraper()]: the outcome, the world after it and the lines it
    printed itself, in order; the first one comes before everything
    [scrape_books] prints, the last one after. [now] is what
    [time.strftime('%H:%M:%S')] gives. *)
Definition run_scraper (urljoin : string -> string -> string) (now : string)
  (fuel : nat) (sched : nat -> nat) (w : World)
  : result unit * World * list run_message :=
  match scrape_books urljoin fuel sched true None w with
  | (Ok scraped_books, w') =>
      if list_truthy scraped_books
      then (Ok tt, w', [MsgRunStart now; MsgRunSuccess (length scraped_books)])
      else (Ok tt, w', [MsgRunStart now; MsgRunNoData])
  | (Raise exc, w') =>
      if is_Exception exc
      then (Ok tt, w', [MsgRunStart now; MsgRunError exc])
      else (Raise exc, w', [MsgRunStart now])
  | (OutOfFuel, w') => (OutOfFuel, w', [MsgRunStart now])
  end.

(** ** Further notions used in the statements *)

(** An exception of the session that is not a [RequestException]: the
    program does not catch it. *)
Definition session_fault (w : World) (e : exn) : Prop :=
  is_RequestException e = false /\ exists url : string, w_net w url = inl e.

(** The site root answers and the reachability check passes. *)
Definition site_reachable (w : World) : Prop :=
  exists r : Response, w_net w BASE_URL = inr r /\ ~ error_status (status_code r).

(** The rows of the specification table, none when there is no table. *)
Definition table_rows (soup : Soup) : list Row :=
  default [] (find_table_striped soup).

(** A record as [get_book_data] returns it on success: not empty, with
    distinct keys, and with every fixed field. *)
Definition complete_record (d : BookData) : Prop :=
  d <> [] /\ dict_wf d /\ Forall (fun k => is_Some (dict_get k d)) fixed_fields.

(** A site whose root fails in a way requests does not wrap. *)
Definition broken_net (url : string) : exn + Response :=
  inl (OtherException "UnicodeError").

Definition broken_world : World := mkWorld broken_net working_fs [].

(** The sample site with both book pages in place. *)
Definition stocked_net (url : string) : exn + Response :=
  if String.eqb url book2_url then inr (mkResponse 200 sample_book)
  else sample_net url.

Definition stocked_world : World := mkWorld stocked_net working_fs [].

(** A world where [artifacts] is a regular file. *)
Definition blocked_world : World :=
  mkWorld sample_net (mkFS ∅ {["artifacts" := "x"]} (fun _ => None)) [].

(** * Properties *)

(** ** Dictionaries *)

Lemma dict_get_set_eq {V : Type} (k : string) (v : V) (d : pydict V) :
  dict_get k (dict_set k v d) = Some v.
Proof.
  induction d as [|[k' v'] d IH]; simpl.
  - by rewrite String.eqb_refl.
  - destruct (String.eqb k k') eqn:E; simpl; rewrite E; [done | apply IH].
Qed.

Lemma dict_get_set_ne {V : Type} (k k' : string) (v : V) (d : pydict V) :
  k <> k' -> dict_get k' (dict_set k v d) = dict_get k' d.
Proof.
  intros Hne. induction d as [|[k0 v0] d IH]; simpl.
  - destruct (String.eqb k' k) eqn:E; [|done].
    apply String.eqb_eq in E. congruence.
  - destruct (String.eqb k k0) eqn:E; simpl.
    + apply String.eqb_eq in E. subst k0.
      destruct (String.eqb k' k) eqn:E'; [|done].
      apply String.eqb_eq in E'. congruence.
    + by rewrite IH.
Qed.

Lemma dict_get_None {V : Type} (k : string) (d : pydict V) :
  dict_get k d = None <-> ~ In k (dict_keys d).
Proof.
  induction d as [|[k' v'] d IH]; simpl; [tauto|].
  destruct (String.eqb k k') eqn:E.
  - apply String.eqb_eq in E. split; [done | intros H; destruct H; auto].
  - apply String.eqb_neq in E. rewrite IH. split; [|tauto].
    intros H [H'|H']; [congruence | tauto].
Qed.

Lemma dict_keys_set {V : Type} (k : string) (v : V) (d : pydict V) :
  dict_keys (dict_set k v d) =
  match dict_get k d with
  | Some _ => dict_keys d
  | None => dict_keys d ++ [k]
  end.
Proof.
  induction d as [|[k' v'] d IH]; simpl; [done|].
  destruct (String.eqb k k') eqn:E; simpl; [done|].
  rewrite IH. by destruct (dict_get k d).
Qed.

Lemma dict_set_wf {V : Type} (k : string) (v : V) (d : pydict V) :
  dict_wf d -> dict_wf (dict_set k v d).
Proof.
  unfold dict_wf. intros Hwf. rewrite dict_keys_set.
  destruct (dict_get k d) eqn:E; [done|].
  apply dict_get_None in E.
  apply NoDup_app. repeat split; [done | | apply NoDup_singleton].
  intros x Hx Hx'. apply list_elem_of_singleton in Hx'. subst x.
  apply E. by apply list_elem_of_In.
Qed.

Lemma dict_update_wf {V : Type} (items : list (string * V)) (d : pydict V) :
  dict_wf d -> dict_wf (dict_update d items).
Proof.
  revert d. induction items as [|[k v] items IH]; intros d Hwf; simpl; [done|].
  apply IH. by apply dict_set_wf.
Qed.

(** Updating with the items of a dict: its value where it has the key,
    the old value elsewhere. *)
Lemma dict_get_update {V : Type} (items d : pydict V) (k : string) :
  dict_wf items ->
  dict_get k (dict_update d items) =
  match dict_get k items with
  | Some v => Some v
  | None => dict_get k d
  end.
Proof.
  revert d. induction items as [|[k1 v1] items IH]; intros d Hwf; simpl; [done|].
  unfold dict_wf in Hwf. simpl in Hwf. apply NoDup_cons in Hwf as [Hk1 Hwf].
  rewrite IH by done.
  destruct (String.eqb k k1) eqn:E.
  - apply String.eqb_eq in E. subst k1.
    assert (dict_get k items = None) as ->.
    { apply dict_get_None. intros H. apply Hk1. by apply list_elem_of_In. }
    apply dict_get_set_eq.
  - apply String.eqb_neq in E.
    destruct (dict_get k items); [done|].
    apply dict_get_set_ne. congruence.
Qed.

(** Appending the items of a dict with fresh keys. *)
Lemma dict_update_fresh {V : Type} (items d : pydict V) :
  dict_wf (d ++ items) -> dict_update d items = d ++ items.
Proof.
  revert d. induction items as [|[k v] items IH]; intros d Hwf; simpl.
  - by rewrite app_nil_r.
  - assert (dict_set k v d = d ++ [(k, v)]) as ->.
    { unfold dict_wf, dict_keys in Hwf. rewrite map_app in Hwf. simpl in Hwf.
      apply NoDup_app in Hwf as (_ & Hdisj & _).
      assert (~ In k (dict_keys d)) as Hk.
      { intros H. apply (Hdisj k); [by apply list_elem_of_In | left]. }
      clear -Hk. induction d as [|[k' v'] d IHd]; simpl; [done|].
      destruct (String.eqb k k') eqn:E.
      - apply String.eqb_eq in E. subst. simpl in Hk. tauto.
      - rewrite IHd; [done|]. simpl in Hk. tauto. }
    rewrite IH; rewrite <- app_assoc; done.
Qed.

(** ** The field extractor *)

Lemma info_row_wf (info : pydict string) (row : Row) :
  dict_wf info -> dict_wf (info_row info row).
Proof.
  intros Hwf. unfold info_row.
  destruct (row_th row), (row_td row); auto using dict_set_wf.
Qed.

Lemma fold_info_row_wf (rows : list Row) (info : pydict string) :
  dict_wf info -> dict_wf (fold_left info_row rows info).
Proof.
  revert info. induction rows as [|row rows IH]; intros info Hwf; simpl; [done|].
  apply IH. by apply info_row_wf.
Qed.

Lemma extract_info_wf (soup : Soup) : dict_wf (extract_info soup).
Proof.
  unfold extract_info. destruct (find_table_striped soup).
  - apply fold_info_row_wf. apply NoDup_nil_2.
  - apply NoDup_nil_2.
Qed.

Lemma info_items_keys (info : pydict string) :
  dict_keys (info_items info) = dict_keys info.
Proof. unfold dict_keys, info_items. rewrite map_map. done. Qed.

Lemma dict_get_info_items (k : string) (info : pydict string) :
  dict_get k (info_items info) = VStr <$> dict_get k info.
Proof.
  induction info as [|[k' v'] info IH]; simpl; [done|].
  by destruct (String.eqb k k').
Qed.

Lemma book_record_unfold (soup : Soup) (book_url : string) :
  book_record soup book_url =
  dict_update (fixed_record soup book_url) (info_items (extract_info soup)).
Proof. unfold book_record, dict_update. by rewrite fold_left_app. Qed.

(** A key of the record: the table's value where the table has the key,
    the fixed field otherwise. *)
Lemma book_record_get (soup : Soup) (book_url k : string) :
  dict_get k (book_record soup book_url) =
  match dict_get k (extract_info soup) with
  | Some v => Some (VStr v)
  | None => dict_get k (fixed_record soup book_url)
  end.
Proof.
  rewrite book_record_unfold, dict_get_update.
  - rewrite dict_get_info_items. by destruct (dict_get k (extract_info soup)).
  - unfold dict_wf. rewrite info_items_keys. apply extract_info_wf.
Qed.

Lemma dict_update_nonempty {V : Type} (items d : pydict V) :
  dict_truthy d = true -> dict_truthy (dict_update d items) = true.
Proof.
  revert d. induction items as [|[k v] items IH]; intros d Hd; simpl; [done|].
  apply IH. destruct d as [|[k' v'] d]; [done|]. simpl.
  by destruct (String.eqb k k').
Qed.

Lemma book_record_truthy (soup : Soup) (book_url : string) :
  dict_truthy (book_record soup book_url) = true.
Proof. rewrite book_record_unfold. by apply dict_update_nonempty. Qed.

Lemma book_record_wf (soup : Soup) (book_url : string) :
  dict_wf (book_record soup book_url).
Proof. apply dict_update_wf, NoDup_nil_2. Qed.

(** What [get_book_data] does, case by case on the answer of the
    session. *)
Lemma get_book_data_run (book_url : string) (w : World) :
  get_book_data book_url w =
  match w_net w book_url with
  | inl e =>
      if is_RequestException e
      then (Ok [],
            mkWorld (w_net w) (w_fs w)
              ((w_events w ++ [EvGet book_url])
                 ++ [EvPrint (MsgBookLoadError book_url e)]))
      else (Raise e, mkWorld (w_net w) (w_fs w) (w_events w ++ [EvGet book_url]))
  | inr r =>
      if (400 <=? status_code r) && (status_code r <? 600)
      then (Ok [],
            mkWorld (w_net w) (w_fs w)
              ((w_events w ++ [EvGet book_url])
                 ++ [EvPrint (MsgBookLoadError book_url
                                (RequestException (HTTPError (status_code r))))]))
      else (Ok (book_record (soup_of r) book_url),
            mkWorld (w_net w) (w_fs w) (w_events w ++ [EvGet book_url]))
  end.
Proof.
  unfold get_book_data, try_except, mbind, M_bind, session_get, emit,
    raise_for_status, raise, print, emit, mret, M_ret.
  simpl. destruct (w_net w book_url) as [e|r]; simpl.
  - by destruct (is_RequestException e).
  - by destruct ((400 <=? status_code r) && (status_code r <? 600)).
Qed.

Lemma error_status_test (status : Z) :
  (400 <=? status) && (status <? 600) = true <-> error_status status.
Proof. unfold error_status. rewrite andb_true_iff. lia. Qed.

Lemma get_book_data_net (book_url : string) (w : World) :
  w_net (snd (get_book_data book_url w)) = w_net w.
Proof.
  rewrite get_book_data_run. destruct (w_net w book_url) as [e|r].
  - by destruct (is_RequestException e).
  - by destruct ((400 <=? status_code r) && (status_code r <? 600)).
Qed.

Lemma get_book_data_fs (book_url : string) (w : World) :
  w_fs (snd (get_book_data book_url w)) = w_fs w.
Proof.
  rewrite get_book_data_run. destruct (w_net w book_url) as [e|r].
  - by destruct (is_RequestException e).
  - by destruct ((400 <=? status_code r) && (status_code r <? 600)).
Qed.

(** The result of a task depends on the network only. *)
Lemma task_result_net (w w' : World) (url : string) :
  w_net w' = w_net w -> task_result w' url = task_result w url.
Proof.
  intros Hnet. unfold task_result. rewrite !get_book_data_run, Hnet.
  destruct (w_net w url) as [e|r].
  - by destruct (is_RequestException e).
  - by destruct ((400 <=? status_code r) && (status_code r <? 600)).
Qed.

(** *** C2: failed fetches *)

(** C2, as stated, fails: a response whose status is not a success status
    but not an error status either (here 304) is parsed like any other
    document, and the record returned is not empty. *)
Lemma extractor_non_success_status_cex :
  exists r : Response,
    w_net sample_world "https://books.toscrape.com/not-modified" = inr r /\
    ~ (200 <= status_code r < 300) /\
    fst (get_book_data "https://books.toscrape.com/not-modified" sample_world)
    <> Ok [].
Proof.
  exists (mkResponse 304 empty_soup). split; [reflexivity|]. split.
  - simpl. lia.
  - vm_compute. discriminate.
Qed.

(** C2, amended: when the session raises a [RequestException] (transport
    error, timeout) or the response has an error status (4xx or 5xx, the
    ones [raise_for_status] raises for), [get_book_data] returns exactly
    the empty dict, does not raise, and has printed the error after its
    one request. *)
Theorem get_book_data_failed_fetch (book_url : string) (w : World) :
  fetch_fails w book_url ->
  exists (exc : exn) (w' : World),
    get_book_data book_url w = (Ok [], w') /\
    is_RequestException exc = true /\
    w_events w' =
      w_events w ++ [EvGet book_url; EvPrint (MsgBookLoadError book_url exc)].
Proof.
  unfold fetch_fails. intros Hfail. rewrite get_book_data_run.
  destruct (w_net w book_url) as [e|r].
  - rewrite Hfail. eexists e, _. split; [reflexivity|]. split; [done|].
    simpl. by rewrite <- app_assoc.
  - apply error_status_test in Hfail. rewrite Hfail.
    eexists (RequestException (HTTPError (status_code r))), _.
    split; [reflexivity|]. split; [done|]. simpl. by rewrite <- app_assoc.
Qed.

Lemma get_book_data_failed_fetch_witness :
  fetch_fails sample_world "https://books.toscrape.com/slow" /\
  exists (exc : exn) (w' : World),
    get_book_data "https://books.toscrape.com/slow" sample_world = (Ok [], w') /\
    is_RequestException exc = true /\
    w_events w' =
      w_events sample_world
        ++ [EvGet "https://books.toscrape.com/slow";
            EvPrint (MsgBookLoadError "https://books.toscrape.com/slow" exc)].
Proof.
  split; [reflexivity|].
  apply (get_book_data_failed_fetch "https://books.toscrape.com/slow" sample_world).
  reflexivity.
Defined.

(** *** C3: successful extractions *)

(** C3, as stated, fails: the page is fetched and parsed, but its table
    has a row labelled [url], and the record carries that row's text
    instead of the requested address. *)
Lemma extractor_url_overwritten_cex :
  exists (r : Response) (book_data : BookData),
    fetch_succeeds sample_world "https://books.toscrape.com/collide" r /\
    fst (get_book_data "https://books.toscrape.com/collide" sample_world)
    = Ok book_data /\
    dict_get "url" book_data <> Some (VStr "https://books.toscrape.com/collide").
Proof.
  exists (mkResponse 200 colliding_book). eexists. split; [|split].
  - split; [reflexivity|]. unfold error_status. simpl. lia.
  - vm_compute. reflexivity.
  - vm_compute. discriminate.
Qed.

(** C3, amended: when the fetch delivers a document, [get_book_data]
    returns a record that is not empty and has the key [url]; its value
    is the requested address, unless the specification table has a row
    labelled [url], whose text it then is. *)
Theorem get_book_data_success (book_url : string) (w : World) (r : Response) :
  fetch_succeeds w book_url r ->
  exists book_data : BookData,
    fst (get_book_data book_url w) = Ok book_data /\
    book_data <> [] /\
    dict_truthy book_data = true /\
    dict_get "url" book_data =
      Some (VStr (default book_url (dict_get "url" (extract_info (soup_of r))))).
Proof.
  intros [Hnet Hstatus]. rewrite get_book_data_run, Hnet.
  destruct ((400 <=? status_code r) && (status_code r <? 600)) eqn:E.
  { apply error_status_test in E. done. }
  exists (book_record (soup_of r) book_url). split; [done|].
  pose proof (book_record_truthy (soup_of r) book_url) as Ht.
  split; [|split; [done|]].
  - intros Heq. rewrite Heq in Ht. done.
  - rewrite book_record_get.
    by destruct (dict_get "url" (extract_info (soup_of r))).
Qed.

Lemma get_book_data_success_witness :
  fetch_succeeds sample_world book1_url (mkResponse 200 sample_book) /\
  exists book_data : BookData,
    fst (get_book_data book1_url sample_world) = Ok book_data /\
    book_data <> [] /\
    dict_truthy book_data = true /\
    dict_get "url" book_data =
      Some (VStr (default book1_url
                    (dict_get "url" (extract_info (soup_of (mkResponse 200 sample_book)))))).
Proof.
  assert (fetch_succeeds sample_world book1_url (mkResponse 200 sample_book)) as H.
  { split; [reflexivity|]. unfold error_status. simpl. lia. }
  split; [exact H|].
  exact (get_book_data_success book1_url sample_world (mkResponse 200 sample_book) H).
Defined.

(** The empty dict is returned exactly for the fetches that fail. *)
Lemma empty_record_iff_fetch_fails (book_url : string) (w : World) :
  fst (get_book_data book_url w) = Ok [] <-> fetch_fails w book_url.
Proof.
  unfold fetch_fails. rewrite get_book_data_run.
  destruct (w_net w book_url) as [e|r].
  - destruct (is_RequestException e); cbn; split; done.
  - pose proof (book_record_truthy (soup_of r) book_url) as Ht.
    destruct ((400 <=? status_code r) && (status_code r <? 600)) eqn:E;
      cbn [fst].
    + apply error_status_test in E. done.
    + split.
      * intros H. injection H as H. rewrite H in Ht. done.
      * intros H. apply error_status_test in H. congruence.
Qed.

(** *** C4: the rating *)

Lemma rating_map_vocabulary (tag : string) :
  default 0 (dict_get tag RATING_MAP) = rating_vocabulary (Some tag).
Proof.
  destruct (decide (tag = "One")) as [->|H1]; [reflexivity|].
  destruct (decide (tag = "Two")) as [->|H2]; [reflexivity|].
  destruct (decide (tag = "Three")) as [->|H3]; [reflexivity|].
  destruct (decide (tag = "Four")) as [->|H4]; [reflexivity|].
  destruct (decide (tag = "Five")) as [->|H5]; [reflexivity|].
  transitivity 0.
  - unfold RATING_MAP. simpl.
    apply String.eqb_neq in H1, H2, H3, H4, H5.
    by rewrite H1, H2, H3, H4, H5.
  - symmetry. unfold rating_vocabulary.
    repeat (match goal with
            | |- context [match ?x with _ => _ end] => destruct x
            end; try reflexivity; try congruence).
Qed.

Lemma rating_vocabulary_range (tag : option string) :
  0 <= rating_vocabulary tag <= 5.
Proof.
  destruct tag as [tag|]; [|simpl; lia].
  rewrite <- rating_map_vocabulary. unfold RATING_MAP. simpl.
  repeat (match goal with
          | |- context [if ?b then _ else _] => destruct b
          end; simpl; try lia).
Qed.

(** C4, as stated, fails for the [rating] of the record: the page is
    fetched and parsed, its star-rating element carries the tag [Three],
    but its table has a row labelled [rating], and the record carries
    that row's text, a string, instead of the number 3. *)
Lemma record_rating_overwritten_cex :
  exists book_data : BookData,
    fetch_succeeds rated_world "https://books.toscrape.com/rated"
      (mkResponse 200 rated_book) /\
    second_class_tag rated_book = Some "Three" /\
    extract_rating rated_book = 3 /\
    fst (get_book_data "https://books.toscrape.com/rated" rated_world)
    = Ok book_data /\
    dict_get "rating" book_data = Some (VStr "five stars") /\
    Forall (fun n : Z => dict_get "rating" book_data <> Some (VInt n))
      [0; 1; 2; 3; 4; 5].
Proof.
  eexists. split; [|split; [|split; [|split; [|split]]]].
  - split; [reflexivity|]. unfold error_status. simpl. lia.
  - reflexivity.
  - reflexivity.
  - vm_compute. reflexivity.
  - reflexivity.
  - repeat (apply Forall_cons; split; [discriminate|]). apply Forall_nil_2.
Qed.

(** C4, amended: the rating [get_book_data] computes is the vocabulary's
    number for the second class tag (index 1) of the star-rating
    element, and 0 when that tag is missing or outside the vocabulary;
    it lies in [0, 5], and it is the value of [rating] in the record,
    unless the specification table has a row labelled [rating], whose
    text the record then carries. *)
Theorem extract_rating_vocabulary (soup : Soup) (book_url : string) :
  extract_rating soup = rating_vocabulary (second_class_tag soup) /\
  0 <= extract_rating soup <= 5 /\
  dict_get "rating" (book_record soup book_url) =
    Some (match dict_get "rating" (extract_info soup) with
          | Some v => VStr v
          | None => VInt (extract_rating soup)
          end).
Proof.
  assert (extract_rating soup = rating_vocabulary (second_class_tag soup)) as Heq.
  { unfold extract_rating, second_class_tag.
    destruct (find_p_star_rating soup) as [el|]; [|done].
    destruct (dict_get "class" (tag_attrs el)) as [[s|classes]|]; [done| |done].
    destruct (1 <? Z.of_nat (length classes)) eqn:Hlen.
    - destruct (classes !! 1%nat) as [c|]; [|done]. apply rating_map_vocabulary.
    - apply Z.ltb_ge in Hlen.
      assert (classes !! 1%nat = None) as ->; [|done].
      apply lookup_ge_None. lia. }
  split; [done|]. split.
  - rewrite Heq. apply rating_vocabulary_range.
  - rewrite book_record_get.
    by destruct (dict_get "rating" (extract_info soup)).
Qed.

(** *** C8: table rows labelled like fixed fields *)

Lemma info_row_get (info : pydict string) (row : Row) (k : string) :
  dict_get k (info_row info row) =
  match row_th row, row_td row with
  | Some th_element, Some td_element =>
      if String.eqb (strip (tag_text th_element)) k
      then Some (strip (tag_text td_element))
      else dict_get k info
  | _, _ => dict_get k info
  end.
Proof.
  unfold info_row. destruct (row_th row) as [th|], (row_td row) as [td|]; try done.
  destruct (String.eqb (strip (tag_text th)) k) eqn:E.
  - apply String.eqb_eq in E. subst k. apply dict_get_set_eq.
  - apply String.eqb_neq in E. by apply dict_get_set_ne.
Qed.

(** Rows that do not carry the label leave its entry alone. *)
Lemma fold_info_row_other (rows : list Row) (info : pydict string) (k : string) :
  Forall (fun r => row_label r <> Some k) rows ->
  dict_get k (fold_left info_row rows info) = dict_get k info.
Proof.
  revert info. induction rows as [|row rows IH]; intros info Hrows; simpl; [done|].
  apply Forall_cons in Hrows as [Hrow Hrows].
  rewrite IH by done. rewrite info_row_get.
  unfold row_label in Hrow.
  destruct (row_th row) as [th|], (row_td row) as [td|]; try done.
  destruct (String.eqb (strip (tag_text th)) k) eqn:E; [|done].
  apply String.eqb_eq in E. congruence.
Qed.

(** Once a label is in the table's dict, it stays. *)
Lemma fold_info_row_is_Some (rows : list Row) (info : pydict string) (k : string) :
  is_Some (dict_get k info) -> is_Some (dict_get k (fold_left info_row rows info)).
Proof.
  revert info. induction rows as [|row rows IH]; intros info Hk; simpl; [done|].
  apply IH. rewrite info_row_get.
  destruct (row_th row) as [th|], (row_td row) as [td|]; try done.
  by destruct (String.eqb (strip (tag_text th)) k).
Qed.

(** C8, as stated, fails on its own example: the names of the fixed
    fields are lower-case keys and labels are compared as they are, so a
    row labelled [Price] does not touch the fixed field [price]: the
    record keeps the price of the page and gets a key [Price] beside
    it. *)
Lemma capital_price_row_cex :
  find_table_striped capital_label_book
  = Some [mkRow (Some (plain "Price")) (Some (plain "99.99"))] /\
  row_label (mkRow (Some (plain "Price")) (Some (plain "99.99"))) = Some "Price" /\
  dict_get "price" (fixed_record capital_label_book "https://books.toscrape.com/b")
  = Some (VStr "10.00") /\
  dict_get "price" (book_record capital_label_book "https://books.toscrape.com/b")
  = Some (VStr "10.00") /\
  dict_get "Price" (book_record capital_label_book "https://books.toscrape.com/b")
  = Some (VStr "99.99").
Proof. repeat split; vm_compute; reflexivity. Qed.

(** C8, amended: for a row of the specification table, with both cells,
    whose label is, after [strip()] and letter for letter, the key of a
    fixed field ([title], [price], [rating], [stock], [description],
    [url]), the fixed field has a value of its own, and the returned
    record carries the table's value for that label in its place; when
    no later row carries the same label, that value is the row's own
    data text. Nothing guards against it. *)
Theorem table_row_overwrites_fixed_field (soup : Soup) (book_url : string)
  (pre post : list Row) (row : Row) (th_element td_element : Tag) :
  find_table_striped soup = Some (pre ++ row :: post) ->
  row_th row = Some th_element ->
  row_td row = Some td_element ->
  strip (tag_text th_element) ∈ fixed_fields ->
  is_Some (dict_get (strip (tag_text th_element)) (fixed_record soup book_url)) /\
  (exists v : string,
     dict_get (strip (tag_text th_element)) (extract_info soup) = Some v /\
     dict_get (strip (tag_text th_element)) (book_record soup book_url)
     = Some (VStr v)) /\
  (Forall (fun r => row_label r <> Some (strip (tag_text th_element))) post ->
   dict_get (strip (tag_text th_element)) (book_record soup book_url)
   = Some (VStr (strip (tag_text td_element)))).
Proof.
  intros Htable Hth Htd Hfixed.
  set (k := strip (tag_text th_element)) in *.
  assert (dict_get k (info_row (fold_left info_row pre []) row)
          = Some (strip (tag_text td_element))) as Hrow.
  { rewrite info_row_get, Hth, Htd. fold k. by rewrite String.eqb_refl. }
  assert (extract_info soup
          = fold_left info_row post (info_row (fold_left info_row pre []) row))
    as Hinfo.
  { unfold extract_info. rewrite Htable, fold_left_app. done. }
  split; [|split].
  - unfold fixed_fields in Hfixed.
    repeat (apply elem_of_cons in Hfixed as [->|Hfixed]; [by eexists|]).
    by apply elem_of_nil in Hfixed.
  - destruct (fold_info_row_is_Some post
                (info_row (fold_left info_row pre []) row) k) as [v Hv].
    { by rewrite Hrow. }
    exists v. rewrite book_record_get, Hinfo, Hv. done.
  - intros Hpost. rewrite book_record_get, Hinfo.
    rewrite fold_info_row_other by done. by rewrite Hrow.
Qed.

Lemma table_row_overwrites_fixed_field_witness :
  find_table_striped colliding_book
  = Some ([mkRow (Some (plain "url")) (Some (plain "elsewhere"))]
            ++ mkRow (Some (plain " price ")) (Some (plain "free"))
            :: [mkRow (Some (plain "UPC")) (Some (plain "0000"))]) /\
  strip (tag_text (plain " price ")) ∈ fixed_fields /\
  Forall (fun r => row_label r <> Some (strip (tag_text (plain " price "))))
    [mkRow (Some (plain "UPC")) (Some (plain "0000"))] /\
  dict_get (strip (tag_text (plain " price ")))
    (book_record colliding_book "https://books.toscrape.com/collide")
  = Some (VStr (strip (tag_text (plain "free")))).
Proof.
  assert (strip (tag_text (plain " price ")) ∈ fixed_fields) as Hin.
  { vm_compute. apply list_elem_of_In. simpl. tauto. }
  assert (Forall (fun r => row_label r <> Some (strip (tag_text (plain " price "))))
            [mkRow (Some (plain "UPC")) (Some (plain "0000"))]) as Hpost.
  { apply Forall_cons. split; [vm_compute; discriminate | apply Forall_nil_2]. }
  split; [reflexivity|]. split; [exact Hin|]. split; [exact Hpost|].
  exact (proj2 (proj2 (table_row_overwrites_fixed_field colliding_book
                  "https://books.toscrape.com/collide"
                  [mkRow (Some (plain "url")) (Some (plain "elsewhere"))]
                  [mkRow (Some (plain "UPC")) (Some (plain "0000"))]
                  (mkRow (Some (plain " price ")) (Some (plain "free")))
                  (plain " price ") (plain "free")
                  eq_refl eq_refl eq_refl Hin)) Hpost).
Defined.


(** ** The fetch dispatch *)

(** [as_completed] yields every pending future once. *)
Lemma as_completed_from_Permutation (sched : nat -> nat) (n step : nat)
  (pending : list string) :
  length pending = n -> as_completed_from n sched step pending ≡ₚ pending.
Proof.
  revert step pending. induction n as [|n IH]; intros step pending Hlen; simpl.
  { destruct pending; [done | discriminate]. }
  destruct pending as [|url0 pending0] eqn:Hp; [done|]. rewrite <- Hp in *.
  assert (sched step mod length pending < length pending)%nat as Hi.
  { apply Nat.mod_upper_bound. rewrite Hlen. lia. }
  destruct (lookup_lt_is_Some_2 pending _ Hi) as [url Hurl].
  rewrite Hurl. symmetry.
  etransitivity; [apply (delete_Permutation pending _ url Hurl)|].
  constructor. symmetry. apply IH. rewrite length_delete by eauto. lia.
Qed.

Lemma as_completed_Permutation (sched : nat -> nat) (futures : list string) :
  as_completed sched futures ≡ₚ futures.
Proof. by apply as_completed_from_Permutation. Qed.

Lemma as_completed_from_shift (n : nat) (sched : nat -> nat) (step : nat)
  (pending : list string) :
  as_completed_from n sched (S step) pending
  = as_completed_from n (fun s => sched (S s)) step pending.
Proof.
  revert step pending. induction n as [|n IH]; intros step pending; [done|].
  cbn [as_completed_from]. destruct pending as [|url0 pending0]; [done|].
  destruct (_ !! _); [|done]. by rewrite IH.
Qed.

Lemma as_completed_from_S (n : nat) (sched : nat -> nat) (step : nat)
  (pending : list string) (url : string) :
  pending !! (sched step mod length pending)%nat = Some url ->
  as_completed_from (S n) sched step pending
  = url :: as_completed_from n sched (S step)
             (delete (sched step mod length pending)%nat pending).
Proof.
  intros Hurl. cbn [as_completed_from].
  destruct pending as [|url0 pending0]; [done|]. by rewrite Hurl.
Qed.

(** Every order of completion is the choice of some scheduler. *)
Lemma as_completed_complete (order futures : list string) :
  order ≡ₚ futures -> exists sched : nat -> nat, as_completed sched futures = order.
Proof.
  revert futures. induction order as [|url order IH]; intros futures Hperm.
  - apply Permutation_nil in Hperm as ->. by exists (fun _ => O).
  - assert (url ∈ futures) as Hin by (rewrite <- Hperm; left).
    apply list_elem_of_lookup in Hin as [i Hi].
    pose proof (lookup_lt_Some _ _ _ Hi) as Hlt.
    assert (order ≡ₚ delete i futures) as Hrest.
    { apply (Permutation_cons_inv (a := url)).
      by rewrite Hperm, <- (delete_Permutation futures i url). }
    destruct (IH _ Hrest) as [sched' Hsched'].
    set (sched := fun s => match s with O => i | S s' => sched' s' end).
    exists sched. unfold as_completed in *.
    assert (length futures = S (length (delete i futures))) as Hlen.
    { rewrite length_delete by eauto. lia. }
    assert ((sched 0 mod length futures)%nat = i) as Hmod.
    { by apply Nat.mod_small. }
    rewrite Hlen at 1.
    rewrite (as_completed_from_S _ sched 0%nat futures url) by (by rewrite Hmod).
    rewrite Hmod, as_completed_from_shift. f_equal. exact Hsched'.
Qed.

Lemma task_record_net (w w' : World) (url : string) :
  w_net w' = w_net w -> task_record w' url = task_record w url.
Proof. intros H. unfold task_record. by rewrite (task_result_net w w'). Qed.

Lemma task_failed_net (w w' : World) (url : string) :
  w_net w' = w_net w -> task_failed w' url = task_failed w url.
Proof. intros H. unfold task_failed. by rewrite (task_record_net w w'). Qed.

(** One turn of the loop over the completed futures: a record that is
    not empty is appended, anything else is counted. *)
Lemma collect_results_step (total : nat) (url : string) (rest : list string)
  (i : Z) (parsed_books : BookList) (failed_count : Z) (w : World) :
  exists w1 : World,
    w_net w1 = w_net w /\
    collect_results total (url :: rest) i parsed_books failed_count w =
    collect_results total rest (i + 1)
      (parsed_books ++ from_option (fun d => [d]) [] (task_record w url))
      (failed_count + (if task_failed w url then 1 else 0)) w1.
Proof.
  unfold task_failed, task_record, task_result.
  cbn [collect_results]. unfold mbind, M_bind, try_except.
  rewrite get_book_data_run.
  destruct (w_net w url) as [e|r]; [destruct (is_RequestException e) eqn:He|].
  - eexists. split; [|cbn; rewrite app_nil_r; reflexivity]. done.
  - eexists. split; [|cbn; rewrite app_nil_r; reflexivity]. done.
  - destruct ((400 <=? status_code r) && (status_code r <? 600)).
    + eexists. split; [|cbn; rewrite app_nil_r; reflexivity]. done.
    + pose proof (book_record_truthy (soup_of r) url) as Ht.
      generalize dependent (book_record (soup_of r) url). intros d Ht.
      eexists. split; [|cbn; rewrite Ht; cbn; rewrite Z.add_0_r; reflexivity].
      done.
Qed.

(** The whole loop: the records of the tasks that returned data, in
    completion order, and the number of the others. *)
Lemma collect_results_run (total : nat) (completed : list string) (w0 : World) :
  forall (i : Z) (parsed_books : BookList) (failed_count : Z) (w : World),
    w_net w = w_net w0 ->
    exists w' : World,
      w_net w' = w_net w0 /\
      collect_results total completed i parsed_books failed_count w =
      (Ok (parsed_books ++ omap (task_record w0) completed,
           failed_count
           + Z.of_nat (length (List.filter (task_failed w0) completed))),
       w').
Proof.
  induction completed as [|url rest IH]; intros i parsed failed w Hnet.
  - exists w. split; [done|]. cbn. by rewrite app_nil_r, Z.add_0_r.
  - destruct (collect_results_step total url rest i parsed failed w)
      as (w1 & Hnet1 & ->).
    destruct (IH (i + 1)
                (parsed ++ from_option (fun d => [d]) [] (task_record w url))
                (failed + (if task_failed w url then 1 else 0)) w1)
      as (w' & Hnet' & ->); [congruence|].
    exists w'. split; [done|].
    rewrite (task_record_net w0 w), (task_failed_net w0 w) by done.
    cbn [omap list_omap List.filter]. unfold task_failed.
    destruct (task_record w0 url) as [d|]; cbn.
    + rewrite <- app_assoc, Z.add_0_r. done.
    + rewrite app_nil_r. do 3 f_equal. lia.
Qed.

Lemma filter_omap_length {A B : Type} (f : A -> option B) (l : list A) :
  (length (omap f l)
   + length (List.filter (fun x => match f x with Some _ => false | None => true end) l)
   = length l)%nat.
Proof.
  induction l as [|x l IH]; cbn; [done|].
  destruct (f x); cbn; lia.
Qed.

Lemma filter_Permutation {A : Type} (p : A -> bool) (l l' : list A) :
  l ≡ₚ l' -> List.filter p l ≡ₚ List.filter p l'.
Proof.
  induction 1 as [|x l l' _ IH|x y l|l1 l2 l3 _ IH1 _ IH2]; cbn.
  - done.
  - destruct (p x); [by constructor | done].
  - destruct (p x), (p y); try done. apply perm_swap.
  - by etransitivity.
Qed.

(** C1: whatever order the tasks complete in, the loop over the completed
    futures ends with every submitted task accounted for once: the
    records appended are, up to order, the records of the tasks that
    returned data, the failure count is the number of the other tasks,
    and the two add up to the number of addresses submitted. *)
Theorem dispatch_accounts_for_every_task (sched : nat -> nat) (w : World)
  (all_book_urls : list string) :
  exists (parsed_books : BookList) (failed_count : Z) (w' : World),
    collect_results (length all_book_urls) (as_completed sched all_book_urls)
      1 [] 0 w
    = (Ok (parsed_books, failed_count), w') /\
    Z.of_nat (length parsed_books) + failed_count
    = Z.of_nat (length all_book_urls) /\
    parsed_books ≡ₚ omap (task_record w) all_book_urls /\
    failed_count
    = Z.of_nat (length (List.filter (task_failed w) all_book_urls)).
Proof.
  destruct (collect_results_run (length all_book_urls)
              (as_completed sched all_book_urls) w 1 [] 0 w eq_refl)
    as (w' & _ & Hrun).
  pose proof (as_completed_Permutation sched all_book_urls) as Hperm.
  eexists _, _, w'. split; [exact Hrun|].
  cbn [app]. rewrite Z.add_0_l.
  assert (length (List.filter (task_failed w) (as_completed sched all_book_urls))
          = length (List.filter (task_failed w) all_book_urls)) as Hfail.
  { apply Permutation_length, filter_Permutation, Hperm. }
  split; [|split].
  - rewrite <- (Permutation_length Hperm).
    pose proof (filter_omap_length (task_record w)
                  (as_completed sched all_book_urls)) as Hlen.
    unfold task_failed. fold (task_failed w) in Hlen |- *.
    change (fun x => match task_record w x with Some _ => false | None => true end)
      with (task_failed w) in Hlen.
    lia.
  - by rewrite Hperm.
  - by rewrite Hfail.
Qed.

(** ** The catalogue walk *)

Section Walk.

Variable urljoin : string -> string -> string.

Lemma check_site_run (w : World) :
  check_site w =
  match w_net w BASE_URL with
  | inl e =>
      if is_RequestException e
      then (Ok false,
            mkWorld (w_net w) (w_fs w)
              ((w_events w ++ [EvGet BASE_URL])
                 ++ [EvPrint (MsgSiteUnavailable e)]))
      else (Raise e, mkWorld (w_net w) (w_fs w) (w_events w ++ [EvGet BASE_URL]))
  | inr r =>
      if (400 <=? status_code r) && (status_code r <? 600)
      then (Ok false,
            mkWorld (w_net w) (w_fs w)
              ((w_events w ++ [EvGet BASE_URL])
                 ++ [EvPrint (MsgSiteUnavailable
                                (RequestException (HTTPError (status_code r))))]))
      else (Ok true,
            mkWorld (w_net w) (w_fs w)
              ((w_events w ++ [EvGet BASE_URL]) ++ [EvPrint MsgSiteAvailable]))
  end.
Proof.
  unfold check_site, try_except, mbind, M_bind, session_get, emit,
    raise_for_status, raise, print, emit, mret, M_ret.
  simpl. destruct (w_net w BASE_URL) as [e|r]; simpl.
  - by destruct (is_RequestException e).
  - by destruct ((400 <=? status_code r) && (status_code r <? 600)).
Qed.

(** C6: when the reachability check of the site root fails (the session
    raises a [RequestException], or the root answers with an error
    status), [scrape_books] returns the empty list after that one
    request: no catalogue page and no book page is requested, nothing is
    written, and the only lines printed are the start line and the line
    that says the site is unavailable. *)
Theorem scrape_books_fast_fail (fuel : nat) (sched : nat -> nat)
  (is_save : bool) (max_pages : option Z) (w : World) :
  fetch_fails w BASE_URL ->
  exists (exc : exn) (w' : World),
    scrape_books urljoin fuel sched is_save max_pages w = (Ok [], w') /\
    w_events w' =
      w_events w
        ++ [EvPrint MsgStart; EvGet BASE_URL; EvPrint (MsgSiteUnavailable exc)] /\
    requests (w_events w') = requests (w_events w) ++ [BASE_URL] /\
    w_fs w' = w_fs w.
Proof.
  unfold fetch_fails. intros Hfail.
  unfold scrape_books, mbind, M_bind. cbn [print emit].
  rewrite check_site_run. cbn [w_net w_fs w_events].
  assert (forall evs exc,
             requests ((evs ++ [EvPrint MsgStart; EvGet BASE_URL])
                         ++ [EvPrint (MsgSiteUnavailable exc)])
             = requests evs ++ [BASE_URL]) as Hreq.
  { intros evs exc. unfold requests. rewrite !omap_app. cbn.
    by rewrite app_nil_r. }
  destruct (w_net w BASE_URL) as [e|r].
  - rewrite Hfail. cbn. exists e. eexists. split; [reflexivity|]. cbn.
    rewrite <- !app_assoc. cbn. split; [done|]. split; [|done].
    rewrite <- (Hreq (w_events w) e), <- !app_assoc. done.
  - apply error_status_test in Hfail. rewrite Hfail. cbn.
    exists (RequestException (HTTPError (status_code r))). eexists.
    split; [reflexivity|]. cbn.
    rewrite <- !app_assoc. cbn. split; [done|]. split; [|done].
    rewrite <- (Hreq (w_events w) (RequestException (HTTPError (status_code r)))),
      <- !app_assoc. done.
Qed.

End Walk.

(** C6 at work: with no network at all, the run asks for the site root
    and nothing else. *)
Lemma scrape_books_fast_fail_witness :
  fetch_fails offline_world BASE_URL /\
  exists (exc : exn) (w' : World),
    scrape_books sample_urljoin 10 (fun _ => 0%nat) true (Some 1) offline_world
    = (Ok [], w') /\
    w_events w' =
      w_events offline_world
        ++ [EvPrint MsgStart; EvGet BASE_URL; EvPrint (MsgSiteUnavailable exc)] /\
    requests (w_events w') = requests (w_events offline_world) ++ [BASE_URL] /\
    w_fs w' = w_fs offline_world.
Proof.
  split; [reflexivity|].
  apply (scrape_books_fast_fail sample_urljoin 10 (fun _ => 0%nat) true (Some 1)
           offline_world).
  reflexivity.
Defined.

Section WalkPages.

Variable urljoin : string -> string -> string.

Lemma walk_page_continue (w : World) (page : Z) (acc : list string)
  (links : list Tag) :
  page_links w page = Some links ->
  walk_page urljoin page acc w =
  (Ok (Continue, acc ++ page_urls urljoin w page),
   mkWorld (w_net w) (w_fs w)
     ((w_events w ++ [EvGet (CATALOGUE_URL_TEMPLATE page)])
        ++ [EvPrint (MsgFoundOnPage (length links) page)])).
Proof.
  unfold page_urls, page_links. intros Hlinks.
  unfold walk_page, try_except, mbind, M_bind, session_get, emit, print, emit.
  cbn [w_net w_fs w_events].
  destruct (w_net w (CATALOGUE_URL_TEMPLATE page)) as [e|r]; [done|].
  destruct (status_code r =? 200); [|done]. cbn [negb].
  destruct (select_product_links (soup_of r)) as [|l ls]; [done|].
  injection Hlinks as <-. reflexivity.
Qed.

Lemma walk_page_stop (w : World) (page : Z) (acc : list string) :
  page_stops w page ->
  exists m : message,
    walk_page urljoin page acc w =
    (Ok (Break, acc),
     mkWorld (w_net w) (w_fs w)
       ((w_events w ++ [EvGet (CATALOGUE_URL_TEMPLATE page)]) ++ [EvPrint m])).
Proof.
  unfold page_stops. intros Hstop.
  unfold walk_page, try_except, mbind, M_bind, session_get, emit, print, emit.
  cbn [w_net w_fs w_events].
  destruct (w_net w (CATALOGUE_URL_TEMPLATE page)) as [e|r].
  - rewrite Hstop. by eexists.
  - destruct (status_code r =? 200) eqn:E; cbn [negb]; [|by eexists].
    apply Z.eqb_eq in E. destruct Hstop as [Hstop|Hstop]; [done|].
    rewrite Hstop. by eexists.
Qed.

Lemma requests_app (evs evs' : list event) :
  requests (evs ++ evs') = requests evs ++ requests evs'.
Proof. apply omap_app. Qed.

(** The walk in full. From [page] on, as long as the cap is not reached
    and the page has status 200 and links, the pages are requested one
    after the other in increasing order and their addresses appended; at
    the first page where the cap is reached ([stop_by_cap]) the walk ends
    without a request, at the first page that is unreachable or empty it
    ends after the request; the addresses collected so far are returned
    in both cases. *)
Lemma collect_urls_walk (max_pages : option Z) (n : nat) :
  forall (fuel : nat) (page : Z) (acc : list string) (w : World)
         (stop_by_cap : bool),
    (n < fuel)%nat ->
    Forall (fun p => cap_reached max_pages p = false /\ is_Some (page_links w p))
      (page_range page n) ->
    (if stop_by_cap
     then cap_reached max_pages (page + Z.of_nat n) = true
     else cap_reached max_pages (page + Z.of_nat n) = false /\
          page_stops w (page + Z.of_nat n)) ->
    exists w' : World,
      collect_urls urljoin fuel max_pages page acc w
      = (Ok (acc ++ concat (map (page_urls urljoin w) (page_range page n))), w') /\
      w_net w' = w_net w /\
      requests (w_events w') =
        requests (w_events w)
          ++ map CATALOGUE_URL_TEMPLATE
               (page_range page (if stop_by_cap then n else S n)).
Proof.
  induction n as [|n IH]; intros fuel page acc w by_cap Hfuel Hgo Hend.
  - destruct fuel as [|fuel]; [lia|]. cbn [collect_urls page_range map concat].
    rewrite Z.add_0_r in Hend. rewrite app_nil_r.
    destruct by_cap.
    + rewrite Hend. exists w. cbn. by rewrite app_nil_r.
    + destruct Hend as [-> Hstop]. unfold mbind, M_bind.
      destruct (walk_page_stop w page acc Hstop) as [m ->]. cbn [fst snd].
      eexists. split; [reflexivity|]. split; [done|]. cbn [w_events].
      rewrite !requests_app. cbn. by rewrite app_nil_r.
  - destruct fuel as [|fuel]; [lia|]. cbn [collect_urls page_range] in *.
    apply Forall_cons in Hgo as [[Hcap [links Hlinks]] Hgo]. rewrite Hcap.
    unfold mbind, M_bind. rewrite (walk_page_continue w page acc links Hlinks).
    cbn [fst snd].
    set (w1 := mkWorld _ _ _).
    assert (forall p, page_links w1 p = page_links w p) as Hsame by done.
    destruct (IH fuel (page + 1) (acc ++ page_urls urljoin w page) w1 by_cap)
      as (w' & Hrun & Hnet & Hreq).
    + lia.
    + eapply Forall_impl; [exact Hgo|]. intros p [? ?]. by rewrite Hsame.
    + replace (page + 1 + Z.of_nat n) with (page + Z.of_nat (S n)) by lia.
      destruct by_cap; [done|]. destruct Hend as [? Hstop]. split; [done|].
      exact Hstop.
    + exists w'. rewrite Hrun. split; [|split; [done|]].
      * cbn [map concat]. rewrite <- app_assoc. do 3 f_equal.
      * rewrite Hreq. subst w1. cbn [w_events]. rewrite !requests_app. cbn.
        rewrite app_nil_r, <- app_assoc. cbn.
        by destruct by_cap.
Qed.

(** What one turn of the walk does, case by case on the answer of the
    session. *)
Lemma walk_page_run (page : Z) (acc : list string) (w : World) :
  walk_page urljoin page acc w =
  match w_net w (CATALOGUE_URL_TEMPLATE page) with
  | inl e =>
      if is_RequestException e
      then (Ok (Break, acc),
            mkWorld (w_net w) (w_fs w)
              ((w_events w ++ [EvGet (CATALOGUE_URL_TEMPLATE page)])
                 ++ [EvPrint (MsgPageLoadError (CATALOGUE_URL_TEMPLATE page) e)]))
      else (Raise e,
            mkWorld (w_net w) (w_fs w)
              (w_events w ++ [EvGet (CATALOGUE_URL_TEMPLATE page)]))
  | inr r =>
      if status_code r =? 200
      then match select_product_links (soup_of r) with
           | [] =>
               (Ok (Break, acc),
                mkWorld (w_net w) (w_fs w)
                  ((w_events w ++ [EvGet (CATALOGUE_URL_TEMPLATE page)])
                     ++ [EvPrint (MsgPageEmpty page)]))
           | l :: ls =>
               (Ok (Continue,
                    acc ++ link_urls urljoin (CATALOGUE_URL_TEMPLATE page) (l :: ls)),
                mkWorld (w_net w) (w_fs w)
                  ((w_events w ++ [EvGet (CATALOGUE_URL_TEMPLATE page)])
                     ++ [EvPrint (MsgFoundOnPage (length (l :: ls)) page)]))
           end
      else (Ok (Break, acc),
            mkWorld (w_net w) (w_fs w)
              ((w_events w ++ [EvGet (CATALOGUE_URL_TEMPLATE page)])
                 ++ [EvPrint (MsgPageUnavailable page)]))
  end.
Proof.
  unfold walk_page, try_except, mbind, M_bind, session_get, emit, print, emit.
  cbn [w_net w_fs w_events].
  destruct (w_net w (CATALOGUE_URL_TEMPLATE page)) as [e|r].
  - by destruct (is_RequestException e).
  - destruct (status_code r =? 200); cbn [negb]; [|done].
    by destruct (select_product_links (soup_of r)).
Qed.

Lemma session_fault_net (w w' : World) (e : exn) :
  w_net w' = w_net w -> session_fault w' e -> session_fault w e.
Proof. unfold session_fault. intros ->. done. Qed.

(** One turn: one request, nothing else touched, and what was collected
    is kept. *)
Lemma walk_page_effects (page : Z) (acc : list string) (w : World) :
  w_net (snd (walk_page urljoin page acc w)) = w_net w /\
  w_fs (snd (walk_page urljoin page acc w)) = w_fs w /\
  requests (w_events (snd (walk_page urljoin page acc w)))
  = requests (w_events w) ++ [CATALOGUE_URL_TEMPLATE page] /\
  fst (walk_page urljoin page acc w) <> OutOfFuel /\
  (forall e, fst (walk_page urljoin page acc w) = Raise e -> session_fault w e) /\
  (forall ctl urls,
      fst (walk_page urljoin page acc w) = Ok (ctl, urls) ->
      acc `prefix_of` urls /\ (ctl = Break -> urls = acc)).
Proof.
  rewrite walk_page_run. unfold session_fault.
  destruct (w_net w (CATALOGUE_URL_TEMPLATE page)) as [e|r] eqn:Hnet;
    [destruct (is_RequestException e) eqn:He
    |destruct (status_code r =? 200);
     [destruct (select_product_links (soup_of r))|]];
    cbn [fst snd w_net w_fs w_events];
    rewrite ?requests_app; cbn [requests omap list_omap]; rewrite ?app_nil_r;
    (split; [done|]); (split; [done|]); (split; [done|]); (split; [done|]);
    split.
  all: try (intros e' [= <-]; split; [done | by eexists]).
  all: try (intros e' ?; done).
  all: intros ctl urls [= <- <-]; split; [|done].
  all: try done.
  by eexists.
Qed.

(** The walk: nothing but requests for consecutive catalogue pages, and
    what was collected is kept. *)
Lemma collect_urls_effects (max_pages : option Z) (fuel : nat) :
  forall (page : Z) (acc : list string) (w : World),
    w_net (snd (collect_urls urljoin fuel max_pages page acc w)) = w_net w /\
    w_fs (snd (collect_urls urljoin fuel max_pages page acc w)) = w_fs w /\
    (forall e,
        fst (collect_urls urljoin fuel max_pages page acc w) = Raise e ->
        session_fault w e) /\
    (forall urls,
        fst (collect_urls urljoin fuel max_pages page acc w) = Ok urls ->
        acc `prefix_of` urls) /\
    exists k : nat,
      requests (w_events (snd (collect_urls urljoin fuel max_pages page acc w)))
      = requests (w_events w)
          ++ map CATALOGUE_URL_TEMPLATE (page_range page k).
Proof.
  induction fuel as [|fuel IH]; intros page acc w.
  { cbn. split; [done|]. split; [done|]. split; [done|]. split; [done|].
    exists O. cbn. by rewrite app_nil_r. }
  cbn [collect_urls]. destruct (cap_reached max_pages page).
  { cbn. split; [done|]. split; [done|]. split; [done|].
    split; [by intros urls [= <-]|].
    exists O. cbn. by rewrite app_nil_r. }
  unfold mbind, M_bind.
  destruct (walk_page_effects page acc w)
    as (Hnet & Hfs & Hreq & Hfuel & Hraise & Hok).
  destruct (walk_page urljoin page acc w) as [[[ctl urls1]|e|] w1];
    cbn [fst snd] in *; [| |done].
  - destruct (Hok ctl urls1 eq_refl) as [Hpre Hbreak].
    destruct ctl.
    + cbn [fst snd mret M_ret]. split; [done|]. split; [done|].
      split; [done|]. split; [by intros urls [= <-]|].
      exists 1%nat. done.
    + destruct (IH (page + 1) urls1 w1) as (Hnet' & Hfs' & Hraise' & Hok' & k & Hreq').
      split; [congruence|]. split; [congruence|]. split; [|split].
      * intros e0 He0. eapply session_fault_net; [exact Hnet|].
        by apply Hraise'.
      * intros urls Hurls. etransitivity; [exact Hpre|]. by apply Hok'.
      * exists (S k). rewrite Hreq', Hreq, <- app_assoc. done.
  - split; [done|]. split; [done|].
    split; [intros e0 [= <-]; by apply Hraise|]. split; [done|].
    exists 1%nat. done.
Qed.

(** C10: with [max_pages] equal to 0 the page-cap test never fires, at any
    page, and the walk and the whole run are those of [max_pages=None].
    The walk does not stop at once: with a turn to spare it requests the
    page it starts from, and when the catalogue pages 1 to [n] answer 200
    with links and page [n+1] is unreachable or empty, the walk is over
    within [n+1] turns, and a walk that returns has requested the pages
    1 to [n+1] in that order and returns the addresses of the pages 1 to
    [n]. *)
Theorem max_pages_zero_is_no_cap (fuel : nat) (sched : nat -> nat)
  (is_save : bool) (w : World) :
  (forall page : Z,
      cap_reached (Some 0) page = false /\ cap_reached None page = false) /\
  (forall (page : Z) (all_book_urls : list string),
      collect_urls urljoin fuel (Some 0) page all_book_urls w
      = collect_urls urljoin fuel None page all_book_urls w) /\
  scrape_books urljoin fuel sched is_save (Some 0) w
  = scrape_books urljoin fuel sched is_save None w /\
  (forall (page : Z) (all_book_urls : list string),
      exists later : list string,
        requests
          (w_events (snd (collect_urls urljoin (S fuel) (Some 0) page
                            all_book_urls w)))
        = requests (w_events w) ++ CATALOGUE_URL_TEMPLATE page :: later) /\
  (forall n : nat,
      (n < fuel)%nat ->
      Forall (fun p => is_Some (page_links w p)) (page_range 1 n) ->
      page_stops w (1 + Z.of_nat n) ->
      fst (collect_urls urljoin fuel (Some 0) 1 [] w) <> OutOfFuel /\
      forall urls : list string,
        fst (collect_urls urljoin fuel (Some 0) 1 [] w) = Ok urls ->
        urls = concat (map (page_urls urljoin w) (page_range 1 n)) /\
        requests (w_events (snd (collect_urls urljoin fuel (Some 0) 1 [] w)))
        = requests (w_events w)
            ++ map CATALOGUE_URL_TEMPLATE (page_range 1 (S n))).
Proof.
  assert (forall f page acc w0,
             collect_urls urljoin f (Some 0) page acc w0
             = collect_urls urljoin f None page acc w0) as Hwalk.
  { induction f as [|f IH]; intros page acc w0; [done|].
    cbn [collect_urls cap_reached Z.eqb negb andb]. unfold mbind, M_bind.
    destruct (walk_page urljoin page acc w0) as [[[ctl urls]|e|] w1]; [|done..].
    cbn [fst snd]. destruct ctl; [done | apply IH]. }
  split; [done|]. split; [intros; apply Hwalk|]. split; [|split].
  - unfold scrape_books, mbind, M_bind.
    destruct (print MsgStart w) as [[[]|e|] w1]; [|done..].
    destruct (check_site w1) as [[available|e|] w2]; [|done..].
    destruct (negb available); [done|]. by rewrite Hwalk.
  - intros page acc.
    cbn [collect_urls cap_reached Z.eqb negb andb]. unfold mbind, M_bind.
    destruct (walk_page_effects page acc w) as (_ & _ & Hreq & Hnofuel & _).
    destruct (walk_page urljoin page acc w) as [[[ctl urls1]|e|] w1];
      cbn [fst snd] in *; [| |done].
    + destruct ctl; cbn [fst snd mret M_ret].
      * exists []. exact Hreq.
      * destruct (collect_urls_effects (Some 0) fuel (page + 1) urls1 w1)
          as (_ & _ & _ & _ & k & Hreq').
        exists (map CATALOGUE_URL_TEMPLATE (page_range (page + 1) k)).
        rewrite Hreq', Hreq, <- app_assoc. done.
    + exists []. exact Hreq.
  - intros n Hfuel Hpages Hstop.
    destruct (collect_urls_walk (Some 0) n fuel 1 [] w false)
      as (w' & Hrun & _ & Hreq).
    + exact Hfuel.
    + eapply Forall_impl; [exact Hpages|]. intros p Hp. split; [done | exact Hp].
    + split; [done | exact Hstop].
    + rewrite Hrun. cbn [fst snd app]. split; [done|].
      intros urls [= <-]. split; [done | exact Hreq].
Qed.

End WalkPages.

(** C10 at work: on the sample site a walk with [max_pages=0] asks for
    page 1 and page 2 and returns the two addresses of page 1. *)
Lemma max_pages_zero_is_no_cap_witness :
  (1 < 5)%nat /\
  Forall (fun p => is_Some (page_links sample_world p)) (page_range 1 1) /\
  page_stops sample_world (1 + Z.of_nat 1) /\
  fst (collect_urls sample_urljoin 5 (Some 0) 1 [] sample_world)
  = Ok [book1_url; book2_url] /\
  [book1_url; book2_url]
  = concat (map (page_urls sample_urljoin sample_world) (page_range 1 1)) /\
  requests (w_events (snd (collect_urls sample_urljoin 5 (Some 0) 1 []
                             sample_world)))
  = requests (w_events sample_world)
      ++ map CATALOGUE_URL_TEMPLATE (page_range 1 2).
Proof.
  assert (1 < 5)%nat as H0 by lia.
  assert (Forall (fun p => is_Some (page_links sample_world p)) (page_range 1 1))
    as H1.
  { apply Forall_cons. split; [by eexists | apply Forall_nil_2]. }
  assert (page_stops sample_world (1 + Z.of_nat 1)) as H2.
  { left. vm_compute. discriminate. }
  assert (fst (collect_urls sample_urljoin 5 (Some 0) 1 [] sample_world)
          = Ok [book1_url; book2_url]) as H3 by (vm_compute; reflexivity).
  split; [exact H0|]. split; [exact H1|]. split; [exact H2|]. split; [exact H3|].
  exact (proj2 (proj2 (proj2 (proj2 (proj2
           (max_pages_zero_is_no_cap sample_urljoin 5 (fun _ => 0%nat) false
              sample_world))))
           1%nat H0 H1 H2) [book1_url; book2_url] H3).
Defined.

(** *** C5: the page cap *)

(** C5 at [max_pages=0]: page 1 exceeds the cap, and yet the walk requests
    page 1 and page 2 and returns the two addresses found on page 1. *)
Theorem walk_ignores_zero_cap :
  0 < 1 /\
  fst (collect_urls sample_urljoin 5 (Some 0) 1 [] sample_world)
  = Ok [book1_url; book2_url] /\
  requests (w_events (snd (collect_urls sample_urljoin 5 (Some 0) 1 [] sample_world)))
  = [CATALOGUE_URL_TEMPLATE 1; CATALOGUE_URL_TEMPLATE 2].
Proof. split; [lia|]. split; vm_compute; reflexivity. Qed.

(** With a cap of 1 on the same site the walk stops before page 2. *)
Lemma walk_stops_at_cap_one :
  fst (collect_urls sample_urljoin 5 (Some 1) 1 [] sample_world)
  = Ok [book1_url; book2_url] /\
  requests (w_events (snd (collect_urls sample_urljoin 5 (Some 1) 1 [] sample_world)))
  = [CATALOGUE_URL_TEMPLATE 1].
Proof. split; vm_compute; reflexivity. Qed.

(** ** Persistence *)

(** What [save_books_data] does, case by case on the state of the file
    system. *)
Lemma save_books_data_run (book_list : BookList) (filename : string) (w : World) :
  let fs := w_fs w in
  let filepath := os_path_join "artifacts" filename in
  let failed (e : os_error) (fs' : FS) :=
    (Ok tt, mkWorld (w_net w) fs' (w_events w ++ [EvPrint (MsgSaveError (OSError e))])) in
  let dirs' := if decide ("artifacts" ∈ fs_dirs fs) then fs_dirs fs
               else {["artifacts"]} ∪ fs_dirs fs in
  save_books_data book_list filename w =
  match fs_fault fs (OpMakedirs "artifacts") with
  | Some e => failed e fs
  | None =>
      if decide (("artifacts" ∉ fs_dirs fs) /\ is_Some (fs_files fs !! "artifacts"))
      then failed FileExistsError fs
      else if has_nul filepath
      then (Raise (OtherException "ValueError"),
            mkWorld (w_net w) (mkFS dirs' (fs_files fs) (fs_fault fs)) (w_events w))
      else
        match fs_fault fs (OpOpenWrite filepath) with
        | Some e => failed e (mkFS dirs' (fs_files fs) (fs_fault fs))
        | None =>
            if decide (filepath ∈ dirs')
            then failed IsADirectoryError (mkFS dirs' (fs_files fs) (fs_fault fs))
            else if names_directory filepath
            then failed IsADirectoryError (mkFS dirs' (fs_files fs) (fs_fault fs))
            else
              match fs_fault fs (OpWrite filepath) with
              | Some e =>
                  failed e (mkFS dirs' (<[filepath := EmptyString]> (fs_files fs))
                              (fs_fault fs))
              | None =>
                  (Ok tt,
                   mkWorld (w_net w)
                     (mkFS dirs' (<[filepath := json_dumps book_list]> (fs_files fs))
                        (fs_fault fs))
                     (w_events w
                        ++ [EvPrint (MsgSaved (length book_list) filepath)]))
              end
        end
  end.
Proof.
  cbv zeta.
  unfold save_books_data, try_except, mbind, M_bind, os_makedirs, open_w,
    file_write, print, emit.
  destruct w as [net fs evs]. destruct fs as [dirs files fault].
  cbn [w_net w_fs w_events fs_dirs fs_files fs_fault].
  destruct (fault (OpMakedirs "artifacts")) as [e|]; [done|].
  destruct (decide ("artifacts" ∈ dirs)) as [Hin|Hin].
  - destruct (decide (_ /\ _)) as [[? ?]|_]; [done|].
    cbn [w_net w_fs w_events fs_dirs fs_files fs_fault].
    destruct (has_nul (os_path_join "artifacts" filename)); [done|].
    destruct (fault (OpOpenWrite (os_path_join "artifacts" filename))) as [e|];
      [done|].
    destruct (decide (os_path_join "artifacts" filename ∈ dirs)); [done|].
    destruct (names_directory (os_path_join "artifacts" filename)); [done|].
    cbn [w_net w_fs w_events fs_dirs fs_files fs_fault].
    destruct (fault (OpWrite (os_path_join "artifacts" filename))) as [e|];
      [done|].
    cbn. rewrite alter_insert_eq. done.
  - destruct (files !! "artifacts") as [old|] eqn:Hfile.
    + destruct (decide (_ /\ _)) as [_|Hn]; [done|].
      destruct Hn. split; [done | by eexists].
    + destruct (decide (_ /\ _)) as [[_ [? ?]]|_]; [done|].
      cbn [w_net w_fs w_events fs_dirs fs_files fs_fault].
      destruct (has_nul (os_path_join "artifacts" filename)); [done|].
      destruct (fault (OpOpenWrite (os_path_join "artifacts" filename))) as [e|];
        [done|].
      destruct (decide (os_path_join "artifacts" filename ∈ {["artifacts"]} ∪ dirs));
        [done|].
      destruct (names_directory (os_path_join "artifacts" filename)); [done|].
      cbn [w_net w_fs w_events fs_dirs fs_files fs_fault].
      destruct (fault (OpWrite (os_path_join "artifacts" filename))) as [e|];
        [done|].
      cbn. rewrite alter_insert_eq. done.
Qed.

(** ** Reading back what [json_dumps] writes *)

Lemma string_app_nil (s : string) : EmptyString +:+ s = s.
Proof. reflexivity. Qed.

Lemma string_app_cons (c : ascii) (a b : string) :
  String c a +:+ b = String c (a +:+ b).
Proof. reflexivity. Qed.

Ltac str_simpl :=
  repeat first [rewrite string_app_cons | rewrite string_app_nil].

Lemma string_app_assoc (a b c : string) : (a +:+ b) +:+ c = a +:+ (b +:+ c).
Proof. induction a as [|x a IH]; str_simpl; [done | by rewrite IH]. Qed.

Lemma string_app_length (a b : string) :
  String.length (a +:+ b) = (String.length a + String.length b)%nat.
Proof. induction a as [|x a IH]; str_simpl; cbn; [done | by rewrite IH]. Qed.

(** *** Strings *)

(** Reading one escaped character gives the character back. *)
Lemma parse_escape_char (c : ascii) (s : string) :
  parse_string_body (json_escape_char c +:+ s) =
  r ← parse_string_body s; Some (String c (fst r), snd r).
Proof.
  destruct c as [[] [] [] [] [] [] [] []]; reflexivity.
Qed.

Lemma parse_string_body_escape (s rest : string) :
  parse_string_body (json_escape s +:+ String dquote rest) = Some (s, rest).
Proof.
  induction s as [|c s IH]; [reflexivity|].
  cbn [json_escape]. rewrite string_app_assoc, parse_escape_char, IH. done.
Qed.

(** *** Integers *)

Lemma digit_value_pretty_char (d : N) :
  (d < 10)%N -> digit_value (pretty_N_char d) = Some d.
Proof.
  intros Hd.
  assert (d = 0 \/ d = 1 \/ d = 2 \/ d = 3 \/ d = 4 \/ d = 5 \/ d = 6 \/ d = 7
          \/ d = 8 \/ d = 9)%N as H by lia.
  repeat (destruct H as [->|H]; [reflexivity|]). subst. reflexivity.
Qed.

Lemma pretty_N_go_app (x : N) (s rest : string) :
  pretty_N_go x s +:+ rest = pretty_N_go x (s +:+ rest).
Proof.
  revert s. induction (N.lt_wf_0 x) as [x _ IH]; intros s.
  destruct (decide (x = 0)%N) as [->|Hx]; [by rewrite !pretty_N_go_0|].
  rewrite (pretty_N_go_step x s), (pretty_N_go_step x (s +:+ rest)) by lia.
  rewrite IH; [reflexivity|]. apply N.div_lt; lia.
Qed.

(** The digits written for [x] read back as [x], shifted behind what was
    read before. *)
Lemma parse_digits_pretty_go (x : N) :
  forall (s : string) (acc : N),
    exists k : N,
      parse_digits acc (pretty_N_go x s) = parse_digits (acc * k + x)%N s.
Proof.
  induction (N.lt_wf_0 x) as [x _ IH]; intros s acc.
  destruct (decide (x = 0)%N) as [->|Hx].
  { exists 1%N. rewrite pretty_N_go_0. f_equal. lia. }
  rewrite pretty_N_go_step by lia.
  destruct (IH (x `div` 10)%N) with (s := String (pretty_N_char (x `mod` 10)) s)
                                    (acc := acc) as [k Hk].
  { apply N.div_lt; lia. }
  exists (k * 10)%N. rewrite Hk. cbn [parse_digits].
  rewrite digit_value_pretty_char by (apply N.mod_lt; lia).
  f_equal. pose proof (N.div_mod x 10). lia.
Qed.

(** A positive number is written with a digit in front. *)
Lemma pretty_N_go_head (x : N) (s : string) :
  (0 < x)%N ->
  exists (c : ascii) (s' : string),
    pretty_N_go x s = String c s' /\ is_Some (digit_value c).
Proof.
  revert s. induction (N.lt_wf_0 x) as [x _ IH]; intros s Hx.
  rewrite pretty_N_go_step by done.
  destruct (decide (x `div` 10 = 0)%N) as [E|E].
  - rewrite E, pretty_N_go_0. eexists _, _. split; [done|].
    rewrite digit_value_pretty_char by (apply N.mod_lt; lia). by eexists.
  - apply IH; [apply N.div_lt; lia | by apply N.neq_0_lt_0].
Qed.

Lemma parse_digits_stop (acc : N) (s : string) :
  no_digit_head s -> parse_digits acc s = (acc, s).
Proof. destruct s as [|c s]; [done|]. cbn. by intros ->. Qed.

Lemma parse_nat_pretty (n : N) (rest : string) :
  no_digit_head rest -> parse_nat (pretty n +:+ rest) = Some (n, rest).
Proof.
  intros Hrest. unfold pretty, pretty_N.
  destruct (decide (n = 0)%N) as [->|Hn].
  - str_simpl. unfold parse_nat. cbn [parse_digits].
    change (digit_value "0") with (Some 0%N). cbv iota beta.
    by rewrite parse_digits_stop.
  - rewrite pretty_N_go_app. str_simpl.
    destruct (pretty_N_go_head n rest) as (c & s' & Heq & [d Hd]); [lia|].
    unfold parse_nat. rewrite Heq, Hd, <- Heq.
    destruct (parse_digits_pretty_go n rest 0%N) as [k ->].
    rewrite parse_digits_stop by done. by rewrite N.mul_0_l, N.add_0_l.
Qed.

Lemma digit_not_punctuation (c : ascii) :
  is_Some (digit_value c) ->
  Ascii.eqb c dquote = false /\ Ascii.eqb c "n" = false /\
  Ascii.eqb c "-" = false /\ is_json_ws c = false.
Proof.
  destruct c as [[] [] [] [] [] [] [] []]; cbn; intros [d Hd];
    try discriminate; done.
Qed.

Lemma parse_int_pretty (n : Z) (rest : string) :
  no_digit_head rest -> parse_int (pretty n +:+ rest) = Some (n, rest).
Proof.
  intros Hrest. unfold pretty, pretty_Z.
  destruct n as [|p|p].
  - str_simpl. unfold parse_int, parse_nat. cbn [parse_digits].
    change (Ascii.eqb "0" "-") with false.
    change (digit_value "0") with (Some 0%N). cbv iota beta.
    by rewrite parse_digits_stop.
  - change (pretty p) with (pretty (Npos p)).
    pose proof (parse_nat_pretty (Npos p) rest Hrest) as Hnat.
    unfold pretty, pretty_N in Hnat |- *. cbn [decide] in *.
    destruct (decide (N.pos p = 0%N)) as [|_]; [done|].
    rewrite pretty_N_go_app in Hnat |- *. rewrite string_app_nil in Hnat |- *.
    destruct (pretty_N_go_head (Npos p) rest) as (c & s' & Heq & Hd); [lia|].
    rewrite Heq in Hnat |- *. unfold parse_int.
    destruct (digit_not_punctuation c Hd) as (_ & _ & -> & _).
    rewrite Hnat. done.
  - change (pretty p) with (pretty (Npos p)). str_simpl. cbn [parse_int].
    change (Ascii.eqb "-" "-") with true. cbv iota.
    rewrite parse_nat_pretty by done. done.
Qed.

(** *** Values *)

Ltac str_norm :=
  repeat first [rewrite string_app_cons | rewrite string_app_nil
               | rewrite string_app_assoc].

(** A number is written with a digit or a minus sign in front. *)
Lemma pretty_Z_head (n : Z) (rest : string) :
  exists (c : ascii) (s' : string),
    pretty n +:+ rest = String c s' /\
    Ascii.eqb c dquote = false /\ Ascii.eqb c "n" = false /\
    is_json_ws c = false.
Proof.
  unfold pretty, pretty_Z. destruct n as [|p|p].
  - str_simpl. by eexists _, _.
  - change (pretty p) with (pretty (Npos p)). unfold pretty, pretty_N.
    destruct (decide (N.pos p = 0%N)) as [|_]; [done|].
    rewrite pretty_N_go_app. str_simpl.
    destruct (pretty_N_go_head (Npos p) rest) as (c & s' & Heq & Hd); [lia|].
    destruct (digit_not_punctuation c Hd) as (? & ? & _ & ?).
    by exists c, s'.
  - str_simpl. by eexists _, _.
Qed.

Lemma skip_ws_value (v : Value) (s : string) :
  skip_ws (json_value v +:+ s) = json_value v +:+ s.
Proof.
  destruct v as [x|n|]; cbn [json_value].
  - unfold json_string. str_simpl. reflexivity.
  - destruct (pretty_Z_head n s) as (c & s' & -> & _ & _ & Hws).
    cbn [skip_ws]. by rewrite Hws.
  - str_simpl. reflexivity.
Qed.

Lemma parse_value_json (v : Value) (rest : string) :
  no_digit_head rest -> parse_value (json_value v +:+ rest) = Some (v, rest).
Proof.
  intros Hrest. destruct v as [x|n|]; cbn [json_value].
  - unfold json_string. str_norm. cbn [parse_value].
    change (Ascii.eqb dquote dquote) with true. cbv iota.
    by rewrite parse_string_body_escape.
  - pose proof (parse_int_pretty n rest Hrest) as Hint.
    destruct (pretty_Z_head n rest) as (c & s' & Heq & Hq & Hn & _).
    rewrite Heq in Hint |- *. cbn [parse_value]. rewrite Hq, Hn, Hint. done.
  - str_simpl. reflexivity.
Qed.

(** *** Records *)

Lemma parse_members_ws (fuel : nat) (acc : BookData) (c : ascii) (s : string) :
  is_json_ws c = true ->
  parse_members fuel acc (String c s) = parse_members fuel acc s.
Proof.
  intros Hc. destruct fuel; [done|]. cbn [parse_members skip_ws]. by rewrite Hc.
Qed.

(** Reading one member line. *)
Lemma parse_members_step (fuel : nat) (acc : BookData) (k : string) (v : Value)
  (rest : string) :
  no_digit_head rest ->
  parse_members (S fuel) acc (json_member (k, v) +:+ rest) =
  match skip_ws rest with
  | EmptyString => None
  | String c s3 =>
      if Ascii.eqb c ","
      then parse_members fuel (dict_set k v acc) s3
      else if Ascii.eqb c "}" then Some (dict_set k v acc, s3) else None
  end.
Proof.
  intros Hrest. unfold json_member, json_string. cbn [fst snd]. str_norm.
  cbn [parse_members skip_ws].
  change (is_json_ws " ") with true. cbv iota.
  change (is_json_ws dquote) with false. cbv iota.
  cbn [expect]. change (Ascii.eqb dquote dquote) with true. cbv iota.
  cbn [mbind option_bind]. rewrite parse_string_body_escape.
  cbn [mbind option_bind fst snd skip_ws].
  change (is_json_ws ":") with false. cbv iota.
  cbn [expect]. change (Ascii.eqb ":" ":") with true. cbv iota.
  cbn [mbind option_bind skip_ws]. change (is_json_ws " ") with true. cbv iota.
  rewrite skip_ws_value, parse_value_json by done.
  cbn [mbind option_bind fst snd]. done.
Qed.

Lemma json_members_cons (kv kv' : string * Value) (d : BookData) :
  json_members (kv :: kv' :: d) =
  json_member kv +:+ String "," (String newline (json_members (kv' :: d))).
Proof. reflexivity. Qed.

Lemma parse_members_json (d : BookData) :
  d <> [] ->
  forall (fuel : nat) (acc : BookData) (tail rest : string),
    (length d <= fuel)%nat ->
    no_digit_head tail ->
    skip_ws tail = String "}" rest ->
    parse_members fuel acc (json_members d +:+ tail)
    = Some (dict_update acc d, rest).
Proof.
  induction d as [|[k v] d IH]; [done|].
  intros _ fuel acc tail rest Hfuel Htail Hskip.
  destruct fuel as [|fuel]; [cbn in Hfuel; lia|].
  destruct d as [|kv' d].
  - cbn [json_members]. rewrite parse_members_step by done.
    rewrite Hskip. reflexivity.
  - rewrite json_members_cons. rewrite string_app_assoc. str_simpl.
    rewrite parse_members_step by done.
    cbn [skip_ws]. change (is_json_ws ",") with false. cbv iota.
    change (Ascii.eqb "," ",") with true. cbv iota.
    rewrite parse_members_ws by done.
    rewrite (IH ltac:(done) fuel (dict_set k v acc) tail rest);
      [done | cbn in Hfuel |- *; lia | done | done].
Qed.

Lemma skip_ws_members (d : BookData) (s : string) :
  d <> [] ->
  exists s' : string, skip_ws (json_members d +:+ s) = String dquote s'.
Proof.
  destruct d as [|[k v] d]; [done|]. intros _.
  destruct d as [|kv' d]; [cbn [json_members] | rewrite json_members_cons];
    unfold json_member, json_string; str_norm; by eexists.
Qed.

Lemma parse_dict_json (d : BookData) (fuel : nat) (rest : string) :
  dict_wf d -> (length d <= fuel)%nat ->
  parse_dict fuel (json_dict d +:+ rest) = Some (d, rest).
Proof.
  intros Hwf Hfuel. destruct d as [|kv d']; [reflexivity|].
  set (d0 := kv :: d') in *.
  assert (d0 <> []) as Hne by done.
  assert (json_dict d0 +:+ rest
          = String "{" (String newline
              (json_members d0 +:+ String newline ("    }" +:+ rest)))) as ->.
  { unfold d0 at 1. unfold json_dict. fold d0.
    rewrite !string_app_cons, string_app_assoc. reflexivity. }
  clearbody d0.
  unfold parse_dict. cbn [skip_ws]. change (is_json_ws "{") with false.
  cbv iota. cbn [expect]. change (Ascii.eqb "{" "{") with true. cbv iota.
  cbn [mbind option_bind skip_ws]. change (is_json_ws newline) with true.
  cbv iota.
  destruct (skip_ws_members d0 (String newline ("    }" +:+ rest)) Hne)
    as [s' Hs'].
  rewrite Hs'. cbn [expect]. change (Ascii.eqb "}" dquote) with false. cbv iota.
  rewrite parse_members_ws by done.
  rewrite (parse_members_json d0 Hne fuel [] _ rest); [|done|done|reflexivity].
  rewrite (dict_update_fresh d0 []); done.
Qed.

(** *** The array *)

Lemma parse_dict_ws (fuel : nat) (c : ascii) (s : string) :
  is_json_ws c = true -> parse_dict fuel (String c s) = parse_dict fuel s.
Proof. intros Hc. unfold parse_dict. cbn [skip_ws]. by rewrite Hc. Qed.

Lemma parse_items_ws (fuel : nat) (c : ascii) (s : string) :
  is_json_ws c = true -> parse_items fuel (String c s) = parse_items fuel s.
Proof.
  intros Hc. destruct fuel; [done|]. cbn [parse_items].
  by rewrite parse_dict_ws.
Qed.

Lemma json_items_cons (d d' : BookData) (l : BookList) :
  json_items (d :: d' :: l) =
  "    " +:+ json_dict d +:+ String "," (String newline (json_items (d' :: l))).
Proof. reflexivity. Qed.

Lemma parse_items_json (l : BookList) :
  l <> [] ->
  forall (fuel : nat) (rest : string),
    Forall dict_wf l ->
    (json_size l <= fuel)%nat ->
    parse_items fuel (json_items l +:+ String newline (String "]" rest))
    = Some (l, rest).
Proof.
  induction l as [|d l IH]; [done|]. intros _ fuel rest Hwf Hfuel.
  apply Forall_cons in Hwf as [Hd Hwf].
  destruct fuel as [|fuel]; [cbn in Hfuel; lia|].
  cbn [json_size] in Hfuel.
  destruct l as [|d' l].
  - cbn [json_items]. rewrite string_app_assoc. str_simpl.
    cbn [parse_items]. rewrite !parse_dict_ws by done.
    rewrite parse_dict_json by (done || lia).
    cbn [mbind option_bind fst snd skip_ws].
    change (is_json_ws newline) with true. cbv iota.
    change (is_json_ws "]") with false. cbv iota.
    change (Ascii.eqb "]" ",") with false. cbv iota.
    change (Ascii.eqb "]" "]") with true. cbv iota. done.
  - rewrite json_items_cons. rewrite !string_app_assoc. str_simpl.
    cbn [parse_items]. rewrite !parse_dict_ws by done.
    rewrite parse_dict_json by (done || lia).
    cbn [mbind option_bind fst snd skip_ws].
    change (is_json_ws ",") with false. cbv iota.
    change (Ascii.eqb "," ",") with true. cbv iota.
    rewrite parse_items_ws by done.
    rewrite (IH ltac:(done) fuel rest); [done | done | lia].
Qed.

Lemma skip_ws_items (l : BookList) (s : string) :
  l <> [] ->
  exists s' : string, skip_ws (json_items l +:+ s) = String "{" s'.
Proof.
  destruct l as [|d l]; [done|]. intros _.
  destruct l as [|d' l]; [cbn [json_items] | rewrite json_items_cons];
    destruct d as [|kv d]; unfold json_dict; str_norm; by eexists.
Qed.

(** *** Fuel *)

Lemma json_members_length (d : BookData) :
  (length d <= String.length (json_members d))%nat.
Proof.
  induction d as [|kv d IH]; [done|].
  destruct d as [|kv' d].
  - cbn [json_members]. unfold json_member. rewrite string_app_length.
    cbn [String.length length]. lia.
  - rewrite json_members_cons. unfold json_member at 1.
    rewrite !string_app_length. cbn [String.length]. cbn [length] in IH |- *.
    lia.
Qed.

Lemma json_dict_length (d : BookData) :
  (length d <= String.length (json_dict d))%nat.
Proof.
  destruct d as [|kv d]; [cbn; lia|].
  unfold json_dict. cbn [String.length]. rewrite string_app_length.
  pose proof (json_members_length (kv :: d)). lia.
Qed.

Lemma json_items_length (l : BookList) :
  (json_size l <= String.length (json_items l))%nat.
Proof.
  induction l as [|d l IH]; [done|].
  pose proof (json_dict_length d) as Hd.
  destruct l as [|d' l].
  - cbn [json_items json_size]. rewrite string_app_length.
    cbn [String.length]. lia.
  - rewrite json_items_cons. cbn [json_size] in IH |- *.
    rewrite !string_app_length. cbn [String.length]. lia.
Qed.

(** Reading back what [json_dumps] writes gives the list written. *)
Lemma json_loads_dumps (book_list : BookList) :
  Forall dict_wf book_list ->
  json_loads (json_dumps book_list) = Some book_list.
Proof.
  intros Hwf. destruct book_list as [|d l]; [reflexivity|].
  set (bl := d :: l) in *. assert (bl <> []) as Hne by done.
  assert (json_dumps bl
          = String "[" (String newline (json_items bl +:+ String newline "]")))
    as Hdumps by reflexivity.
  clearbody bl. unfold json_loads. rewrite Hdumps.
  cbn [skip_ws]. change (is_json_ws "[") with false. cbv iota.
  cbn [expect]. change (Ascii.eqb "[" "[") with true. cbv iota.
  cbn [mbind option_bind skip_ws]. change (is_json_ws newline) with true.
  cbv iota.
  destruct (skip_ws_items bl (String newline "]") Hne) as [s' ->].
  cbn [expect]. change (Ascii.eqb "]" "{") with false. cbv iota.
  rewrite parse_items_ws by done.
  rewrite (parse_items_json bl Hne _ EmptyString); [done | done |].
  cbn [String.length]. rewrite string_app_length.
  pose proof (json_items_length bl). lia.
Qed.

(** *** C7: what the caller of [save_books_data] gets *)


Lemma has_nul_app (a b : string) :
  has_nul (a +:+ b) = has_nul a || has_nul b.
Proof.
  induction a as [|c a IH]; [done|].
  rewrite string_app_cons. cbn [has_nul]. by rewrite IH, orb_assoc.
Qed.

Lemma has_nul_path_join (filename : string) :
  has_nul (os_path_join "artifacts" filename) = has_nul filename.
Proof.
  unfold os_path_join.
  assert (has_nul ("artifacts" +:+ "/" +:+ filename) = has_nul filename) as H.
  { by rewrite !has_nul_app. }
  destruct filename as [|c rest]; [exact H|].
  destruct c as [[] [] [] [] [] [] [] []]; first [exact H | reflexivity].
Qed.

(** The run of [save_books_data] for a name without a NUL character, in
    terms of the first fault met. *)
Lemma save_books_data_fault (book_list : BookList) (filename : string)
  (w : World) :
  has_nul filename = false ->
  exists w' : World,
    save_books_data book_list filename w = (Ok tt, w') /\
    w_net w' = w_net w /\
    match save_fault (w_fs w) filename with
    | Some e =>
        w_events w' = w_events w ++ [EvPrint (MsgSaveError (OSError e))]
    | None =>
        w_events w' =
          w_events w
            ++ [EvPrint (MsgSaved (length book_list)
                           (os_path_join "artifacts" filename))] /\
        fs_files (w_fs w') !! os_path_join "artifacts" filename
        = Some (json_dumps book_list)
    end.
Proof.
  intros Hnul. rewrite save_books_data_run. unfold save_fault. cbv zeta.
  rewrite has_nul_path_join, Hnul.
  destruct (fs_fault (w_fs w) (OpMakedirs "artifacts")) as [e|];
    [by eexists|].
  destruct (decide (_ /\ _)) as [_|Hfile]; [by eexists|].
  destruct (fs_fault (w_fs w) (OpOpenWrite (os_path_join "artifacts" filename)))
    as [e|]; [by eexists|].
    destruct (decide ("artifacts" ∈ fs_dirs (w_fs w))) as [Hin|Hin].
  - destruct (decide (os_path_join "artifacts" filename ∈ fs_dirs (w_fs w))) as [Hd|Hd];
    destruct (decide (os_path_join "artifacts" filename ∈ ({["artifacts"]} ∪ fs_dirs (w_fs w) : gset string))) as [Hd'|Hd'].
    + by eexists.
    + destruct Hd'. set_solver.
    + destruct Hd. apply elem_of_union in Hd' as [Hd'|Hd']; [|done].
      apply elem_of_singleton in Hd'. by rewrite Hd'.
    + destruct (names_directory _); [by eexists|].
      destruct (fs_fault (w_fs w) (OpWrite (os_path_join "artifacts" filename)))
        as [e|]; [by eexists|].
      eexists. split; [reflexivity|]. split; [done|]. split; [done|].
      cbn. apply lookup_insert_eq.
  - destruct (decide (os_path_join "artifacts" filename ∈ ({["artifacts"]} ∪ fs_dirs (w_fs w) : gset string))) as [Hd'|Hd'].
    + by eexists.
    + destruct (names_directory _); [by eexists|].
      destruct (fs_fault (w_fs w) (OpWrite (os_path_join "artifacts" filename)))
        as [e|]; [by eexists|].
      eexists. split; [reflexivity|]. split; [done|]. split; [done|].
      cbn. apply lookup_insert_eq.
Qed.



(** A name with a NUL character is beyond C7: [open] refuses it with a
    [ValueError], which is not an [OSError] and passes through, after
    [artifacts] has been created. *)
Lemma save_books_data_nul_name :
  fst (save_books_data sample_books (String "000" "books.txt") sample_world)
  = Raise (OtherException "ValueError") /\
  "artifacts" ∈ fs_dirs (w_fs (snd (save_books_data sample_books
                                      (String "000" "books.txt") sample_world))).
Proof.
  rewrite save_books_data_run. cbv zeta.
  change (fs_fault (w_fs sample_world) (OpMakedirs "artifacts"))
    with (@None os_error).
  destruct (decide (_ /\ _)) as [[_ [x Hx]]|_].
  { vm_compute in Hx. discriminate Hx. }
  rewrite has_nul_path_join.
  assert (has_nul (String "000" "books.txt") = true) as -> by reflexivity.
  cbn [fst snd w_fs fs_dirs]. split; [reflexivity|].
  destruct (decide _) as [Hin|_]; [exact Hin|].
  apply elem_of_union_l. by apply elem_of_singleton.
Qed.

(** *** C9: saving twice and reading back *)

(** A call that printed the success line has left the serialized list at
    the destination, whatever was there before. *)
Lemma save_books_data_overwrites (book_list : BookList) (filename : string)
  (w : World) :
  let filepath := os_path_join "artifacts" filename in
  let w' := snd (save_books_data book_list filename w) in
  w_events w' = w_events w ++ [EvPrint (MsgSaved (length book_list) filepath)] ->
  fs_files (w_fs w') !! filepath = Some (json_dumps book_list).
Proof.
  cbv zeta. rewrite save_books_data_run. cbv zeta.
  repeat (match goal with
          | |- context [match ?x with _ => _ end] => destruct x
          end;
          try (cbn; intros H; apply app_inj_tail in H as [_ H]; discriminate);
          try (cbn; intros H; apply (f_equal length) in H;
               rewrite length_app in H; cbn in H; lia)).
  all: intros _; cbn; apply lookup_insert_eq.
Qed.

(** On a file system without faults, where [artifacts] is not a regular
    file and the destination is not a directory, the call saves. *)
Lemma save_books_data_succeeds (book_list : BookList) (filename : string)
  (w : World) :
  let filepath := os_path_join "artifacts" filename in
  has_nul filename = false ->
  names_directory filepath = false ->
  (forall op : fs_op, fs_fault (w_fs w) op = None) ->
  fs_files (w_fs w) !! "artifacts" = None ->
  filepath ∉ ({["artifacts"]} ∪ fs_dirs (w_fs w) : gset string) ->
  w_events (snd (save_books_data book_list filename w))
  = w_events w ++ [EvPrint (MsgSaved (length book_list) filepath)].
Proof.
  cbv zeta. intros Hnul Hname Hfault Hfile Hdir.
  destruct (save_books_data_fault book_list filename w Hnul)
    as (w' & -> & _ & Hout).
  unfold save_fault in Hout. cbv zeta in Hout.
  rewrite !Hfault, Hfile, Hname in Hout.
  destruct (decide (_ /\ _)) as [[_ [? ?]]|_]; [done|].
  rewrite decide_False in Hout by done. by destruct Hout.
Qed.

(** C9: when a list of records (dicts, so with distinct keys each) is
    saved twice under the same name and the second call reports that it
    saved, the file at the destination holds the serialization of the
    list, once, and reading it back gives the list. *)
Theorem save_twice_round_trip (book_list : BookList) (filename : string)
  (w : World) :
  let filepath := os_path_join "artifacts" filename in
  let w1 := snd (save_books_data book_list filename w) in
  let w2 := snd (save_books_data book_list filename w1) in
  Forall dict_wf book_list ->
  w_events w2 = w_events w1 ++ [EvPrint (MsgSaved (length book_list) filepath)] ->
  exists text : string,
    fs_files (w_fs w2) !! filepath = Some text /\
    text = json_dumps book_list /\
    json_loads text = Some book_list.
Proof.
  cbv zeta. intros Hwf Hsaved. exists (json_dumps book_list).
  split; [|split; [done|]].
  - by apply save_books_data_overwrites.
  - by apply json_loads_dumps.
Qed.

Lemma save_twice_round_trip_witness :
  Forall dict_wf sample_books /\
  (let w1 := snd (save_books_data sample_books "books_data.txt" sample_world) in
   let w2 := snd (save_books_data sample_books "books_data.txt" w1) in
   w_events w2 =
     w_events w1
       ++ [EvPrint (MsgSaved (length sample_books)
                      (os_path_join "artifacts" "books_data.txt"))]) /\
  exists text : string,
    fs_files
      (w_fs (snd (save_books_data sample_books "books_data.txt"
                    (snd (save_books_data sample_books "books_data.txt"
                            sample_world)))))
      !! os_path_join "artifacts" "books_data.txt" = Some text /\
    text = json_dumps sample_books /\
    json_loads text = Some sample_books.
Proof.
  assert (Forall dict_wf sample_books) as Hwf.
  { unfold sample_books, dict_wf, dict_keys.
    apply (bool_decide_unpack _). vm_compute. reflexivity. }
  split; [exact Hwf|]. split; [vm_compute; reflexivity|].
  apply (save_twice_round_trip sample_books "books_data.txt" sample_world Hwf).
  vm_compute. reflexivity.
Defined.

(** * Further properties of the code *)

(** ** Records *)

Lemma filter_ext_elem {A : Type} (P Q : A -> Prop)
  `{!forall x, Decision (P x)} `{!forall x, Decision (Q x)} (l : list A) :
  (forall x, x ∈ l -> P x <-> Q x) -> filter P l = filter Q l.
Proof.
  induction l as [|x l IH]; intros Hext; [done|].
  rewrite !filter_cons.
  assert (P x <-> Q x) as Hx by (apply Hext; left).
  rewrite IH by (intros y Hy; apply Hext; by right).
  destruct (decide (P x)), (decide (Q x)); tauto.
Qed.

Lemma dict_update_cons {V : Type} (k : string) (v : V) (items d : pydict V) :
  dict_update d ((k, v) :: items) = dict_update (dict_set k v d) items.
Proof. reflexivity. Qed.

(** The keys after a dict display with [**items]: the old keys in their
    places, then the new ones in the order of [items]. *)
Lemma dict_keys_update {V : Type} (items d : pydict V) :
  dict_wf items ->
  dict_keys (dict_update d items)
  = dict_keys d ++ filter (fun k => k ∉ dict_keys d) (dict_keys items).
Proof.
  revert d. induction items as [|[k1 v1] items IH]; intros d Hwf.
  { cbn. by rewrite app_nil_r. }
  unfold dict_wf in Hwf. cbn in Hwf. apply NoDup_cons in Hwf as [Hk1 Hwf].
  rewrite dict_update_cons, IH by done.
  cbn [dict_keys map fst]. fold (dict_keys items).
  rewrite dict_keys_set, filter_cons.
  destruct (dict_get k1 d) eqn:E.
  - assert (k1 ∈ dict_keys d) as Hin.
    { destruct (decide (k1 ∈ dict_keys d)) as [|Hn]; [done|]. exfalso.
      assert (dict_get k1 d = None) as Hnone; [|congruence].
      apply dict_get_None. intros H%list_elem_of_In. done. }
    by rewrite decide_False by (intros H; by apply H).
  - assert (k1 ∉ dict_keys d) as Hnin.
    { intros H%list_elem_of_In. by apply dict_get_None in E. }
    rewrite decide_True by done. rewrite <- app_assoc. cbn. do 2 f_equal.
    apply filter_ext_elem. intros k Hk. rewrite not_elem_of_app.
    split; [tauto|]. intros Hd. split; [done|].
    intros ->%list_elem_of_singleton. done.
Qed.

(** X1: the keys of a returned record are the six fixed fields, in the
    order of the dict display, followed by the labels of the
    specification table that are not fixed fields, in table order. *)
Theorem book_record_keys (soup : Soup) (book_url : string) :
  dict_keys (book_record soup book_url)
  = fixed_fields
      ++ filter (fun k => k ∉ fixed_fields) (dict_keys (extract_info soup)).
Proof.
  rewrite book_record_unfold, dict_keys_update.
  - by rewrite info_items_keys.
  - unfold dict_wf. rewrite info_items_keys. apply extract_info_wf.
Qed.

Lemma fold_info_row_Exists (rows : list Row) (info : pydict string) (k : string) :
  is_Some (dict_get k (fold_left info_row rows info)) <->
  is_Some (dict_get k info) \/ Exists (fun r => row_label r = Some k) rows.
Proof.
  revert info. induction rows as [|row rows IH]; intros info; cbn [fold_left].
  { rewrite Exists_nil. tauto. }
  rewrite IH, Exists_cons, info_row_get. unfold row_label.
  destruct (row_th row) as [th|], (row_td row) as [td|];
    try (split; [intros [?|?]; auto | intros [?|[?|?]]; auto; done]).
  destruct (String.eqb (strip (tag_text th)) k) eqn:E.
  - apply String.eqb_eq in E. subst k. split; [|intros _; left; by eexists].
    intros _. right. by left.
  - apply String.eqb_neq in E. split; [intros [?|?]; auto|].
    intros [?|[H|?]]; auto. congruence.
Qed.

(** X2: the table's dict has a label exactly when some row with both a
    header cell and a data cell carries it; rows that lack a cell, and a
    page without a table, contribute nothing. *)
Theorem extract_info_labels (soup : Soup) (k : string) :
  is_Some (dict_get k (extract_info soup)) <->
  Exists (fun r => row_label r = Some k) (table_rows soup).
Proof.
  unfold extract_info, table_rows.
  destruct (find_table_striped soup) as [rows|]; cbn [default].
  - rewrite fold_info_row_Exists. cbn. split; [|auto].
    intros [[? ?]|?]; done.
  - rewrite Exists_nil. cbn. split; [intros [? ?]; done | done].
Qed.

(** X3: whatever the session answers, and whether [get_book_data]
    returns or not, it has made exactly one request, for the address it
    was given, and has left the file system as it was. *)
Theorem get_book_data_effects (book_url : string) (w : World) :
  requests (w_events (snd (get_book_data book_url w)))
  = requests (w_events w) ++ [book_url] /\
  w_fs (snd (get_book_data book_url w)) = w_fs w /\
  w_net (snd (get_book_data book_url w)) = w_net w.
Proof.
  rewrite get_book_data_run.
  destruct (w_net w book_url) as [e|r];
    [destruct (is_RequestException e) eqn:He
    |destruct ((400 <=? status_code r) && (status_code r <? 600))];
    cbn [fst snd w_net w_fs w_events];
    rewrite ?requests_app; cbn; rewrite ?app_nil_r;
    repeat split; done.
Qed.

Lemma book_record_complete (soup : Soup) (book_url : string) :
  complete_record (book_record soup book_url).
Proof.
  split; [|split].
  - intros H. pose proof (book_record_truthy soup book_url) as Ht.
    rewrite H in Ht. done.
  - apply book_record_wf.
  - unfold fixed_fields.
    repeat (apply Forall_cons; split;
            [rewrite book_record_get;
             by destruct (dict_get _ (extract_info soup))|]).
    apply Forall_nil_2.
Qed.

(** X4: what [get_book_data] returns is either the empty dict or a
    record with distinct keys that has every fixed field: never a
    partially filled one. *)
Theorem get_book_data_empty_or_complete (book_url : string) (w : World)
  (book_data : BookData) :
  fst (get_book_data book_url w) = Ok book_data ->
  book_data = [] \/ complete_record book_data.
Proof.
  rewrite get_book_data_run.
  destruct (w_net w book_url) as [e|r];
    [destruct (is_RequestException e)
    |destruct ((400 <=? status_code r) && (status_code r <? 600))];
    cbn [fst]; intros [= <-]; auto.
  right. apply book_record_complete.
Qed.

Lemma get_book_data_empty_or_complete_witness :
  fst (get_book_data book1_url sample_world)
  = Ok (book_record sample_book book1_url) /\
  (book_record sample_book book1_url = [] \/
   complete_record (book_record sample_book book1_url)).
Proof.
  assert (fst (get_book_data book1_url sample_world)
          = Ok (book_record sample_book book1_url)) as H by reflexivity.
  split; [exact H|].
  exact (get_book_data_empty_or_complete book1_url sample_world _ H).
Defined.

Lemma task_record_complete (w : World) (url : string) (d : BookData) :
  task_record w url = Some d -> complete_record d.
Proof.
  unfold task_record, task_result. rewrite get_book_data_run.
  destruct (w_net w url) as [e|r];
    [destruct (is_RequestException e)
    |destruct ((400 <=? status_code r) && (status_code r <? 600))];
    cbn [fst dict_truthy]; try done.
  rewrite book_record_truthy. intros [= <-]. apply book_record_complete.
Qed.

(** ** The catalogue walk, for every network *)

Section WalkBounds.

Variable urljoin : string -> string -> string.

(** X6: whatever the network answers and whatever the cap, the walk
    only ever adds to the addresses collected so far: what it returns
    starts with what it was given. *)
Theorem walk_keeps_collected (fuel : nat) (max_pages : option Z) (page : Z)
  (acc urls : list string) (w : World) :
  fst (collect_urls urljoin fuel max_pages page acc w) = Ok urls ->
  acc `prefix_of` urls.
Proof.
  destruct (collect_urls_effects urljoin max_pages fuel page acc w)
    as (_ & _ & _ & Hok & _).
  apply Hok.
Qed.

Lemma page_range_elem (p page : Z) (n : nat) :
  p ∈ page_range page n -> page <= p < page + Z.of_nat n.
Proof.
  revert page. induction n as [|n IH]; intros page; cbn [page_range].
  { intros H. by apply elem_of_nil in H. }
  intros [->|H]%elem_of_cons; [lia|]. apply IH in H. lia.
Qed.

(** With a cap other than 0 the walk is over within
    [max_pages - page + 1] turns. *)
Lemma collect_urls_cap_ends (m : Z) (fuel : nat) :
  forall (page : Z) (acc : list string) (w : World),
    m <> 0 ->
    (Z.to_nat (m - page + 1) < fuel)%nat ->
    fst (collect_urls urljoin fuel (Some m) page acc w) <> OutOfFuel.
Proof.
  induction fuel as [|fuel IH]; intros page acc w Hm Hfuel; [lia|].
  cbn [collect_urls cap_reached].
  destruct (negb (m =? 0) && (m <? page)) eqn:Hcap; [done|].
  assert (page <= m) as Hle.
  { apply andb_false_iff in Hcap as [Hz|Hlt].
    - apply negb_false_iff, Z.eqb_eq in Hz. done.
    - apply Z.ltb_ge in Hlt. done. }
  unfold mbind, M_bind.
  destruct (walk_page_effects urljoin page acc w) as (_ & _ & _ & Hnofuel & _).
  destruct (walk_page urljoin page acc w) as [[[ctl urls1]|e|] w1];
    cbn [fst snd] in *; [|done|done].
  destruct ctl; [done|]. apply IH; [done | lia].
Qed.

(** X7: with a cap other than 0, the walk from [page] is over within
    [max_pages - page + 1] turns, whatever the network answers, and it
    requests consecutive catalogue pages starting at [page], never one
    beyond the cap. *)
Theorem walk_within_cap (m : Z) (fuel : nat) :
  forall (page : Z) (acc : list string) (w : World),
    m <> 0 ->
    (Z.to_nat (m - page + 1) < fuel)%nat ->
    fst (collect_urls urljoin fuel (Some m) page acc w) <> OutOfFuel /\
    exists k : nat,
      Z.of_nat k <= Z.max 0 (m - page + 1) /\
      requests (w_events (snd (collect_urls urljoin fuel (Some m) page acc w)))
      = requests (w_events w)
          ++ map CATALOGUE_URL_TEMPLATE (page_range page k).
Proof.
  induction fuel as [|fuel IH]; intros page acc w Hm Hfuel; [lia|].
  cbn [collect_urls cap_reached].
  destruct (negb (m =? 0) && (m <? page)) eqn:Hcap.
  { cbn. split; [done|]. exists O. split; [lia|]. cbn. by rewrite app_nil_r. }
  assert (page <= m) as Hle.
  { apply andb_false_iff in Hcap as [Hz|Hlt].
    - apply negb_false_iff, Z.eqb_eq in Hz. done.
    - apply Z.ltb_ge in Hlt. done. }
  unfold mbind, M_bind.
  destruct (walk_page_effects urljoin page acc w)
    as (Hnet & Hfs & Hreq & Hnofuel & _ & _).
  destruct (walk_page urljoin page acc w) as [[[ctl urls1]|e|] w1];
    cbn [fst snd] in *; [| |done].
  - destruct ctl.
    + cbn. split; [done|]. exists 1%nat. split; [lia|]. done.
    + destruct (IH (page + 1) urls1 w1 Hm) as (Hnf & k & Hk & Hreq'); [lia|].
      split; [done|]. exists (S k). split; [lia|].
      rewrite Hreq', Hreq, <- app_assoc. done.
  - split; [done|]. exists 1%nat. split; [lia|]. done.
Qed.

(** X8: with a cap of [n] pages and [n] catalogue pages that answer 200
    with links, a walk that returns has requested exactly the pages 1 to
    [n], in that order, and returns all their addresses in page order;
    what page [n+1] would answer plays no part, and the walk is over
    within [n+1] turns. *)
Theorem walk_to_cap (n fuel : nat) (w : World) :
  (0 < n)%nat ->
  (n < fuel)%nat ->
  Forall (fun p => is_Some (page_links w p)) (page_range 1 n) ->
  fst (collect_urls urljoin fuel (Some (Z.of_nat n)) 1 [] w) <> OutOfFuel /\
  forall urls : list string,
    fst (collect_urls urljoin fuel (Some (Z.of_nat n)) 1 [] w) = Ok urls ->
    urls = concat (map (page_urls urljoin w) (page_range 1 n)) /\
    requests
      (w_events (snd (collect_urls urljoin fuel (Some (Z.of_nat n)) 1 [] w)))
    = requests (w_events w) ++ map CATALOGUE_URL_TEMPLATE (page_range 1 n).
Proof.
  intros Hn Hfuel Hpages.
  destruct (collect_urls_walk urljoin (Some (Z.of_nat n)) n fuel 1 [] w true)
    as (w' & Hrun & _ & Hreq).
  - done.
  - apply Forall_forall. intros p Hp. split.
    + apply page_range_elem in Hp. cbn [cap_reached].
      apply andb_false_iff. right. apply Z.ltb_ge. lia.
    + by eapply Forall_forall in Hpages.
  - cbn [cap_reached]. apply andb_true_iff. split.
    + apply negb_true_iff, Z.eqb_neq. lia.
    + apply Z.ltb_lt. lia.
  - rewrite Hrun. cbn [fst snd app]. split; [done|].
    intros urls [= <-]. split; [done | exact Hreq].
Qed.

End WalkBounds.

Lemma walk_keeps_collected_witness :
  fst (collect_urls sample_urljoin 5 (Some 1) 1 ["earlier"] sample_world)
  = Ok ["earlier"; book1_url; book2_url] /\
  ["earlier"] `prefix_of` ["earlier"; book1_url; book2_url].
Proof.
  assert (fst (collect_urls sample_urljoin 5 (Some 1) 1 ["earlier"] sample_world)
          = Ok ["earlier"; book1_url; book2_url]) as H by (vm_compute; reflexivity).
  split; [exact H|].
  exact (walk_keeps_collected sample_urljoin 5 (Some 1) 1 ["earlier"] _
           sample_world H).
Defined.

Lemma walk_within_cap_witness :
  (2 : Z) <> 0 /\
  (Z.to_nat (2 - 1 + 1) < 5)%nat /\
  fst (collect_urls sample_urljoin 5 (Some 2) 1 [] sample_world) <> OutOfFuel /\
  exists k : nat,
    Z.of_nat k <= Z.max 0 (2 - 1 + 1) /\
    requests (w_events (snd (collect_urls sample_urljoin 5 (Some 2) 1 []
                               sample_world)))
    = requests (w_events sample_world)
        ++ map CATALOGUE_URL_TEMPLATE (page_range 1 k).
Proof.
  assert ((2 : Z) <> 0) as H0 by lia.
  assert (Z.to_nat (2 - 1 + 1) < 5)%nat as H1 by (cbn; lia).
  split; [exact H0|]. split; [exact H1|].
  exact (walk_within_cap sample_urljoin 2 5 1 [] sample_world H0 H1).
Defined.

Lemma walk_to_cap_witness :
  (0 < 1)%nat /\ (1 < 5)%nat /\
  Forall (fun p => is_Some (page_links sample_world p)) (page_range 1 1) /\
  fst (collect_urls sample_urljoin 5 (Some (Z.of_nat 1)) 1 [] sample_world)
  = Ok [book1_url; book2_url] /\
  [book1_url; book2_url]
  = concat (map (page_urls sample_urljoin sample_world) (page_range 1 1)) /\
  requests
    (w_events (snd (collect_urls sample_urljoin 5 (Some (Z.of_nat 1)) 1 []
                      sample_world)))
  = requests (w_events sample_world)
      ++ map CATALOGUE_URL_TEMPLATE (page_range 1 1).
Proof.
  assert (0 < 1)%nat as H0 by lia.
  assert (1 < 5)%nat as H1 by lia.
  assert (Forall (fun p => is_Some (page_links sample_world p)) (page_range 1 1))
    as H2.
  { apply Forall_cons. split; [by eexists | apply Forall_nil_2]. }
  assert (fst (collect_urls sample_urljoin 5 (Some (Z.of_nat 1)) 1 []
                 sample_world)
          = Ok [book1_url; book2_url]) as H3 by (vm_compute; reflexivity).
  split; [exact H0|]. split; [exact H1|]. split; [exact H2|]. split; [exact H3|].
  exact (proj2 (walk_to_cap sample_urljoin 1 5 sample_world H0 H1 H2) _ H3).
Defined.

(** ** The fetch dispatch, its requests *)

Lemma collect_results_step_effects (total : nat) (url : string)
  (rest : list string) (i : Z) (parsed_books : BookList) (failed_count : Z)
  (w : World) :
  exists w1 : World,
    w_net w1 = w_net w /\
    w_fs w1 = w_fs w /\
    requests (w_events w1) = requests (w_events w) ++ [url] /\
    collect_results total (url :: rest) i parsed_books failed_count w =
    collect_results total rest (i + 1)
      (parsed_books ++ from_option (fun d => [d]) [] (task_record w url))
      (failed_count + (if task_failed w url then 1 else 0)) w1.
Proof.
  unfold task_failed, task_record, task_result.
  cbn [collect_results]. unfold mbind, M_bind, try_except.
  rewrite get_book_data_run.
  destruct (w_net w url) as [e|r]; [destruct (is_RequestException e) eqn:He|].
  - eexists. split; [|split; [|split; [|cbn; rewrite app_nil_r; reflexivity]]];
      [done|done|].
    cbn. rewrite !requests_app. cbn. by rewrite !app_nil_r.
  - eexists. split; [|split; [|split; [|cbn; rewrite app_nil_r; reflexivity]]];
      [done|done|].
    cbn. rewrite !requests_app. cbn. by rewrite !app_nil_r.
  - destruct ((400 <=? status_code r) && (status_code r <? 600)).
    + eexists.
      split; [|split; [|split; [|cbn; rewrite app_nil_r; reflexivity]]];
        [done|done|].
      cbn. rewrite !requests_app. cbn. by rewrite !app_nil_r.
    + pose proof (book_record_truthy (soup_of r) url) as Ht.
      generalize dependent (book_record (soup_of r) url). intros d Ht.
      eexists.
      split; [|split; [|split; [|cbn; rewrite Ht; cbn; rewrite Z.add_0_r;
                                 reflexivity]]]; [done|done|].
      cbn. rewrite !requests_app. cbn. by rewrite !app_nil_r.
Qed.

Lemma collect_results_effects (total : nat) (completed : list string) :
  forall (i : Z) (parsed_books : BookList) (failed_count : Z) (w : World),
    w_fs (snd (collect_results total completed i parsed_books failed_count w))
    = w_fs w /\
    requests
      (w_events (snd (collect_results total completed i parsed_books
                        failed_count w)))
    = requests (w_events w) ++ completed.
Proof.
  induction completed as [|url rest IH]; intros i parsed failed w.
  - cbn. by rewrite app_nil_r.
  - destruct (collect_results_step_effects total url rest i parsed failed w)
      as (w1 & _ & Hfs & Hreq & ->).
    destruct (IH (i + 1)
                (parsed ++ from_option (fun d => [d]) [] (task_record w url))
                (failed + (if task_failed w url then 1 else 0)) w1)
      as [Hfs' Hreq'].
    split; [congruence|]. rewrite Hreq', Hreq, <- app_assoc. done.
Qed.

(** X9: the requests of the dispatch are the submitted addresses, each
    one once for each time it was submitted, whatever the order in which
    the tasks complete: a failed fetch is never tried again; and the
    dispatch writes nothing. *)
Theorem dispatch_requests_each_once (sched : nat -> nat) (w : World)
  (all_book_urls : list string) :
  exists order : list string,
    order ≡ₚ all_book_urls /\
    requests
      (w_events (snd (collect_results (length all_book_urls)
                        (as_completed sched all_book_urls) 1 [] 0 w)))
    = requests (w_events w) ++ order /\
    w_fs (snd (collect_results (length all_book_urls)
                 (as_completed sched all_book_urls) 1 [] 0 w))
    = w_fs w.
Proof.
  exists (as_completed sched all_book_urls).
  split; [apply as_completed_Permutation|].
  destruct (collect_results_effects (length all_book_urls)
              (as_completed sched all_book_urls) 1 [] 0 w) as [Hfs Hreq].
  done.
Qed.

(** ** Persistence, further cases *)

Lemma save_books_data_ok (book_list : BookList) (filename : string) (w : World) :
  has_nul filename = false ->
  fst (save_books_data book_list filename w) = Ok tt /\
  w_net (snd (save_books_data book_list filename w)) = w_net w /\
  requests (w_events (snd (save_books_data book_list filename w)))
  = requests (w_events w).
Proof.
  intros Hnul.
  destruct (save_books_data_fault book_list filename w Hnul)
    as (w' & -> & Hnet & Hout).
  cbn [fst snd]. split; [done|]. split; [exact Hnet|].
  destruct (save_fault (w_fs w) filename) as [e|]; [|destruct Hout as [Hout _]];
    rewrite Hout, requests_app; cbn; by rewrite app_nil_r.
Qed.

(** X11: when [artifacts] exists as a regular file, the call prints a
    [FileExistsError], writes nothing and changes nothing in the file
    system, whatever the file name. *)
Theorem save_books_data_blocked (book_list : BookList) (filename : string)
  (w : World) :
  fs_fault (w_fs w) (OpMakedirs "artifacts") = None ->
  ("artifacts" ∉ fs_dirs (w_fs w)) ->
  is_Some (fs_files (w_fs w) !! "artifacts") ->
  save_books_data book_list filename w
  = (Ok tt,
     mkWorld (w_net w) (w_fs w)
       (w_events w ++ [EvPrint (MsgSaveError (OSError FileExistsError))])).
Proof.
  intros Hfault Hdir Hfile. rewrite save_books_data_run. cbv zeta.
  rewrite Hfault. rewrite decide_True by done. done.
Qed.

Lemma save_books_data_blocked_witness :
  fs_fault (w_fs blocked_world) (OpMakedirs "artifacts") = None /\
  ("artifacts" ∉ fs_dirs (w_fs blocked_world)) /\
  is_Some (fs_files (w_fs blocked_world) !! "artifacts") /\
  save_books_data sample_books "books_data.txt" blocked_world
  = (Ok tt,
     mkWorld (w_net blocked_world) (w_fs blocked_world)
       (w_events blocked_world
          ++ [EvPrint (MsgSaveError (OSError FileExistsError))])).
Proof.
  assert ("artifacts" ∉ fs_dirs (w_fs blocked_world)) as H1.
  { cbn. apply not_elem_of_empty. }
  assert (is_Some (fs_files (w_fs blocked_world) !! "artifacts")) as H2.
  { by eexists. }
  split; [reflexivity|]. split; [exact H1|]. split; [exact H2|].
  exact (save_books_data_blocked sample_books "books_data.txt" blocked_world
           eq_refl H1 H2).
Defined.

(** X12: a file name that starts with a slash is taken as it is. When
    the call says that it saved, the path it names is the file name
    itself, not one under [artifacts]; the serialized list is at that
    path, and the directory [artifacts] exists all the same. *)
Theorem save_books_data_absolute (book_list : BookList) (name : string)
  (w : World) (n : nat) (filepath : string) :
  let filename := String "/" name in
  let w' := snd (save_books_data book_list filename w) in
  w_events w' = w_events w ++ [EvPrint (MsgSaved n filepath)] ->
  filepath = filename /\
  n = length book_list /\
  fs_files (w_fs w') !! filename = Some (json_dumps book_list) /\
  "artifacts" ∈ fs_dirs (w_fs w').
Proof.
  cbv zeta.
  assert (os_path_join "artifacts" (String "/" name) = String "/" name) as Hjoin
    by reflexivity.
  rewrite save_books_data_run. cbv zeta. rewrite Hjoin.
  repeat (match goal with
          | |- context [match ?x with _ => _ end] => destruct x
          end;
          try (cbn; intros H; apply app_inj_tail in H as [_ H]; discriminate);
          try (cbn; intros H; apply (f_equal length) in H;
               rewrite length_app in H; cbn in H; lia)).
  all: cbn [snd w_events w_fs fs_files fs_dirs].
  all: intros H; apply app_inj_tail in H as [_ H]; injection H as <- <-.
  all: split; [done|]; split; [done|]; split; [apply lookup_insert_eq|].
  all: first [assumption | apply elem_of_union_l; by apply elem_of_singleton].
Qed.

Lemma save_books_data_absolute_witness :
  w_events (snd (save_books_data sample_books (String "/" "tmp/books.json")
                   sample_world))
  = w_events sample_world ++ [EvPrint (MsgSaved 2 "/tmp/books.json")] /\
  "/tmp/books.json" = String "/" "tmp/books.json" /\
  (2 = length sample_books)%nat /\
  fs_files (w_fs (snd (save_books_data sample_books (String "/" "tmp/books.json")
                         sample_world)))
    !! String "/" "tmp/books.json"
  = Some (json_dumps sample_books) /\
  "artifacts"
  ∈ fs_dirs (w_fs (snd (save_books_data sample_books
                          (String "/" "tmp/books.json") sample_world))).
Proof.
  assert (w_events (snd (save_books_data sample_books
                           (String "/" "tmp/books.json") sample_world))
          = w_events sample_world ++ [EvPrint (MsgSaved 2 "/tmp/books.json")])
    as H by (vm_compute; reflexivity).
  split; [exact H|].
  exact (save_books_data_absolute sample_books "tmp/books.json" sample_world
           2 "/tmp/books.json" H).
Defined.

(** ** The whole run *)

Section Run.

Variable urljoin : string -> string -> string.

(** [scrape_books], stage by stage. *)
Lemma scrape_books_unfold (fuel : nat) (sched : nat -> nat) (is_save : bool)
  (max_pages : option Z) (w : World) :
  scrape_books urljoin fuel sched is_save max_pages w =
  match check_site (snd (print MsgStart w)) with
  | (Ok true, w2) =>
      match collect_urls urljoin fuel max_pages 1 [] w2 with
      | (Ok [], w3) =>
          (Ok [], snd (print MsgNothingFound (snd (print (MsgTotalFound 0) w3))))
      | (Ok (u :: us), w3) =>
          match collect_results (length (u :: us))
                  (as_completed sched (u :: us)) 1 [] 0
                  (snd (print (MsgLaunch MAX_WORKERS (length (u :: us)))
                          (snd (print (MsgTotalFound (length (u :: us))) w3))))
          with
          | (Ok st, w5) =>
              let w6 :=
                snd (print (MsgSummary (length (fst st)) (snd st))
                       (snd (print MsgDone
                               (snd (print MsgRule (snd (print MsgBlank w5)))))))
              in
              (Ok (fst st),
               if is_save && list_truthy (fst st)
               then snd (save_books_data (fst st) "books_data.txt" w6)
               else w6)
          | (Raise e, w5) => (Raise e, w5)
          | (OutOfFuel, w5) => (OutOfFuel, w5)
          end
      | (Raise e, w3) => (Raise e, w3)
      | (OutOfFuel, w3) => (OutOfFuel, w3)
      end
  | (Ok false, w2) => (Ok [], w2)
  | (Raise e, w2) => (Raise e, w2)
  | (OutOfFuel, w2) => (OutOfFuel, w2)
  end.
Proof.
  unfold scrape_books, mbind, M_bind. cbn [print emit fst snd].
  destruct (check_site _) as [[[]|e|] w2]; cbn [negb]; try done.
  destruct (collect_urls urljoin fuel max_pages 1 [] w2) as [[[|u us]|e|] w3];
    try done.
  cbn [fst snd w_net w_fs w_events].
  destruct (collect_results _ _ _ _ _ _) as [[st|e|] w5]; try done.
  cbn [fst snd w_net w_fs w_events].
  destruct (_ && _); [|done].
  destruct (save_books_data_ok (fst st) "books_data.txt"
              (mkWorld (w_net w5) (w_fs w5)
                 ((((w_events w5 ++ [EvPrint MsgBlank]) ++ [EvPrint MsgRule])
                     ++ [EvPrint MsgDone])
                    ++ [EvPrint (MsgSummary (length (fst st)) (snd st))]))
              eq_refl)
    as (Hok & _ & _).
  destruct (save_books_data _ _ _) as [r w7]. cbn [fst snd] in *.
  by rewrite Hok.
Qed.

Lemma check_site_effects (w : World) :
  w_net (snd (check_site w)) = w_net w /\
  w_fs (snd (check_site w)) = w_fs w /\
  requests (w_events (snd (check_site w))) = requests (w_events w) ++ [BASE_URL] /\
  fst (check_site w) <> OutOfFuel /\
  (forall e, fst (check_site w) = Raise e -> session_fault w e) /\
  (site_reachable w -> fst (check_site w) = Ok true) /\
  (fetch_fails w BASE_URL -> fst (check_site w) = Ok false).
Proof.
  rewrite check_site_run. unfold session_fault, site_reachable, fetch_fails.
  destruct (w_net w BASE_URL) as [e|r] eqn:Hnet;
    [destruct (is_RequestException e) eqn:He
    |destruct ((400 <=? status_code r) && (status_code r <? 600)) eqn:Hst];
    cbn [fst snd w_net w_fs w_events];
    rewrite ?requests_app; cbn [requests omap list_omap]; rewrite ?app_nil_r;
    (split; [done|]); (split; [done|]); (split; [done|]); (split; [done|]).
  - split; [done|]. split; [|done]. intros (r & ? & _). done.
  - split; [|split; [|done]].
    + intros e' [= <-]. split; [done | by eexists].
    + intros (r & ? & _). done.
  - apply error_status_test in Hst. split; [done|]. split; [|done].
    intros (r' & [= <-] & ?). done.
  - split; [done|]. split; [done|]. intros H. apply error_status_test in H.
    congruence.
Qed.

Lemma collect_results_complete (total : nat) (completed : list string)
  (w : World) (st : BookList * Z) (w' : World) :
  collect_results total completed 1 [] 0 w = (Ok st, w') ->
  fst st = omap (task_record w) completed /\ Forall complete_record (fst st).
Proof.
  destruct (collect_results_run total completed w 1 [] 0 w eq_refl)
    as (w'' & _ & ->).
  intros [= <- _]. cbn [fst app]. split; [done|].
  apply Forall_forall. intros d (url & _ & Hd)%list_elem_of_omap.
  by eapply task_record_complete.
Qed.

(** What [scrape_books] lets through comes from the session. *)
Lemma scrape_books_raises (fuel : nat) (sched : nat -> nat) (is_save : bool)
  (max_pages : option Z) (w : World) (e : exn) :
  fst (scrape_books urljoin fuel sched is_save max_pages w) = Raise e ->
  session_fault w e.
Proof.
  rewrite scrape_books_unfold.
  set (w1 := snd (print MsgStart w)).
  destruct (check_site_effects w1) as (Hnet2 & _ & _ & _ & Hraise2 & _).
  destruct (check_site w1) as [[[]|e2|] w2]; cbn [fst snd] in *; try done.
  - destruct (collect_urls_effects urljoin max_pages fuel 1 [] w2)
      as (Hnet3 & _ & Hraise3 & _).
    destruct (collect_urls urljoin fuel max_pages 1 [] w2)
      as [[[|u us]|e3|] w3]; cbn [fst snd] in *; try done.
    + set (w4 := snd (print _ (snd (print _ w3)))).
      destruct (collect_results_run (length (u :: us))
                  (as_completed sched (u :: us)) w4 1 [] 0 w4 eq_refl)
        as (w5 & _ & ->). done.
    + intros [= <-]. eapply (session_fault_net w w2); [by rewrite Hnet2|].
      by apply Hraise3.
  - intros [= <-]. apply (session_fault_net w w1); [done|]. by apply Hraise2.
Qed.

(** X13: no [RequestException] ever leaves [scrape_books]: whatever the
    session raises of that kind, for the site root, a catalogue page or
    a book page, and whatever status it answers with, the run deals with
    it and goes on or returns. *)
Theorem scrape_books_raises_no_request_exception (fuel : nat)
  (sched : nat -> nat) (is_save : bool) (max_pages : option Z) (w : World)
  (e : exn) :
  fst (scrape_books urljoin fuel sched is_save max_pages w) = Raise e ->
  is_RequestException e = false.
Proof.
  intros Hraise.
  destruct (scrape_books_raises fuel sched is_save max_pages w e Hraise)
    as [He _].
  exact He.
Qed.


(** X15: every record a run returns is a complete one: not empty, with
    distinct keys and with every fixed field. *)
Theorem scrape_books_records_complete (fuel : nat) (sched : nat -> nat)
  (is_save : bool) (max_pages : option Z) (w : World) (books : BookList) :
  fst (scrape_books urljoin fuel sched is_save max_pages w) = Ok books ->
  Forall complete_record books.
Proof.
  rewrite scrape_books_unfold.
  destruct (check_site _) as [[[]|e2|] w2]; cbn [fst snd];
    [|by intros [= <-]|done|done].
  destruct (collect_urls urljoin fuel max_pages 1 [] w2)
    as [[[|u us]|e3|] w3]; cbn [fst snd]; [by intros [= <-]| |done|done].
  destruct (collect_results _ _ _ _ _ _) as [[st|e5|] w5] eqn:Hrun;
    cbn [fst snd]; [|done|done].
  intros [= <-]. by apply collect_results_complete in Hrun as [_ ?].
Qed.

(** X18: with a positive page cap the run always comes to an end: within
    [max_pages + 1] turns of the page loop it returns or raises, whatever
    the network answers. *)
Theorem scrape_books_ends_with_cap (m : Z) (fuel : nat) (sched : nat -> nat)
  (is_save : bool) (w : World) :
  0 < m ->
  (Z.to_nat m < fuel)%nat ->
  fst (scrape_books urljoin fuel sched is_save (Some m) w) <> OutOfFuel.
Proof.
  intros Hm Hfuel. rewrite scrape_books_unfold.
  set (w1 := snd (print MsgStart w)).
  destruct (check_site_effects w1) as (_ & _ & _ & Hnf2 & _).
  destruct (check_site w1) as [[[]|e2|] w2]; cbn [fst snd] in *; try done.
  pose proof (collect_urls_cap_ends urljoin m fuel 1 [] w2) as Hnf3.
  specialize (Hnf3 ltac:(lia)).
  replace (m - 1 + 1) with m in Hnf3 by lia. specialize (Hnf3 Hfuel).
  destruct (collect_urls urljoin fuel (Some m) 1 [] w2)
    as [[[|u us]|e3|] w3]; cbn [fst snd] in *; try done.
  set (w4 := snd (print _ (snd (print _ w3)))).
  destruct (collect_results_run (length (u :: us))
              (as_completed sched (u :: us)) w4 1 [] 0 w4 eq_refl)
    as (w5 & _ & ->). done.
Qed.

Lemma page_links_net (w w' : World) (p : Z) :
  w_net w' = w_net w -> page_links w' p = page_links w p.
Proof. unfold page_links. by intros ->. Qed.

Lemma page_urls_net (w w' : World) (p : Z) :
  w_net w' = w_net w -> page_urls urljoin w' p = page_urls urljoin w p.
Proof. intros H. unfold page_urls. by rewrite (page_links_net w w'). Qed.

Lemma page_stops_net (w w' : World) (p : Z) :
  w_net w' = w_net w -> page_stops w p -> page_stops w' p.
Proof. unfold page_stops. by intros ->. Qed.

Lemma omap_task_record_net (w w' : World) (urls : list string) :
  w_net w' = w_net w -> omap (task_record w') urls = omap (task_record w) urls.
Proof.
  intros H. induction urls as [|url urls IH]; [done|].
  cbn [omap list_omap]. fold (omap (task_record w') urls).
  fold (omap (task_record w) urls).
  by rewrite IH, (task_record_net w w').
Qed.

(** The walk of [collect_urls_walk], from any world with the same
    network. *)
Lemma collect_urls_walk_net (n fuel : nat) (max_pages : option Z) (w : World)
  (stop_by_cap : bool) :
  (n < fuel)%nat ->
  Forall (fun p => cap_reached max_pages p = false /\ is_Some (page_links w p))
    (page_range 1 n) ->
  (if stop_by_cap
   then cap_reached max_pages (1 + Z.of_nat n) = true
   else cap_reached max_pages (1 + Z.of_nat n) = false /\
        page_stops w (1 + Z.of_nat n)) ->
  forall w2 : World,
    w_net w2 = w_net w ->
    exists w3 : World,
      collect_urls urljoin fuel max_pages 1 [] w2
      = (Ok (concat (map (page_urls urljoin w) (page_range 1 n))), w3) /\
      w_net w3 = w_net w /\
      requests (w_events w3)
      = requests (w_events w2)
          ++ map CATALOGUE_URL_TEMPLATE
               (page_range 1 (if stop_by_cap then n else S n)).
Proof.
  intros Hfuel Hpages Hend w2 Hnet2.
  destruct (collect_urls_walk urljoin max_pages n fuel 1 [] w2 stop_by_cap)
    as (w3 & Hrun3 & Hnet3 & Hreq3).
  { done. }
  { eapply Forall_impl; [exact Hpages|]. intros p [? ?].
    by rewrite (page_links_net w w2). }
  { destruct stop_by_cap; [done|]. destruct Hend as [? ?]. split; [done|].
    by apply (page_stops_net w w2). }
  exists w3. rewrite Hrun3. cbn [app].
  assert (map (page_urls urljoin w2) (page_range 1 n)
          = map (page_urls urljoin w) (page_range 1 n)) as ->.
  { apply map_ext. intros p. by apply page_urls_net. }
  split; [done|]. split; [congruence | done].
Qed.

(** The run on a reachable site, given what the walk does. *)
Lemma scrape_books_after_walk (fuel : nat) (sched : nat -> nat) (is_save : bool)
  (max_pages : option Z) (w : World) (urls pages : list string) :
  site_reachable w ->
  (forall w2 : World,
      w_net w2 = w_net w ->
      exists w3 : World,
        collect_urls urljoin fuel max_pages 1 [] w2 = (Ok urls, w3) /\
        w_net w3 = w_net w /\
        requests (w_events w3) = requests (w_events w2) ++ pages) ->
  exists (books : BookList) (w' : World),
    scrape_books urljoin fuel sched is_save max_pages w = (Ok books, w') /\
    books ≡ₚ omap (task_record w) urls /\
    requests (w_events w')
    = requests (w_events w) ++ BASE_URL :: pages ++ as_completed sched urls.
Proof.
  intros Hsite Hwalk. rewrite scrape_books_unfold.
  set (w1 := snd (print MsgStart w)).
  assert (w_net w1 = w_net w) as Hnet1 by done.
  assert (requests (w_events w1) = requests (w_events w)) as Hreq1.
  { subst w1. cbn. rewrite requests_app. cbn. by rewrite app_nil_r. }
  destruct (check_site_effects w1) as (Hnet2 & _ & Hreq2 & _ & _ & Hok2 & _).
  assert (fst (check_site w1) = Ok true) as Hck.
  { apply Hok2. unfold site_reachable in *. by rewrite Hnet1. }
  destruct (check_site w1) as [r2 w2]. cbn [fst snd] in *. subst r2.
  destruct (Hwalk w2) as (w3 & Hrun3 & Hnet3 & Hreq3); [congruence|].
  rewrite Hrun3.
  destruct urls as [|u us] eqn:Hurls.
  - eexists _, _. split; [reflexivity|]. split; [done|].
    cbn. rewrite !requests_app. cbn. rewrite !app_nil_r.
    rewrite Hreq3, Hreq2, Hreq1, <- !app_assoc. done.
  - rewrite <- Hurls. clear Hurls Hrun3 Hwalk.
    set (w4 := snd (print _ (snd (print _ w3)))).
    assert (w_net w4 = w_net w) as Hnet4 by (subst w4; cbn; congruence).
    assert (requests (w_events w4) = requests (w_events w3)) as Hreq4.
    { subst w4. cbn. rewrite !requests_app. cbn. by rewrite !app_nil_r. }
    destruct (collect_results_run (length urls) (as_completed sched urls)
                w4 1 [] 0 w4 eq_refl) as (w5 & Hnet5 & Hrun5).
    destruct (collect_results_effects (length urls) (as_completed sched urls)
                1 [] 0 w4) as [_ Hreq5].
    rewrite Hrun5 in Hreq5 |- *. cbn [fst snd app] in *.
    eexists _, _. split; [reflexivity|]. split.
    + rewrite (omap_task_record_net w w4) by done.
      by rewrite as_completed_Permutation.
    + set (w6 := snd (print _ (snd (print _ (snd (print _ (snd (print _ w5)))))))).
      assert (requests (w_events w6) = requests (w_events w5)) as Hreq6.
      { subst w6. cbn. rewrite !requests_app. cbn. by rewrite !app_nil_r. }
      assert (requests
                (w_events
                   (if is_save && list_truthy (omap (task_record w4)
                                                 (as_completed sched urls))
                    then snd (save_books_data
                                (omap (task_record w4) (as_completed sched urls))
                                "books_data.txt" w6)
                    else w6))
              = requests (w_events w6)) as ->.
      { destruct (_ && _); [|done].
        by destruct (save_books_data_ok
                       (omap (task_record w4) (as_completed sched urls))
                       "books_data.txt" w6 eq_refl) as (_ & _ & ->). }
      rewrite Hreq6, Hreq5, Hreq4, Hreq3, Hreq2, Hreq1, <- !app_assoc. done.
Qed.

(** X16: on a reachable site, when the first [n] catalogue pages answer
    200 with links and the walk ends at page [n+1] (by the cap, or
    because that page is unreachable or empty), the run comes to an
    end, and a run that returns returns, up to order, the records of the
    addresses of those [n] pages whose task returned data; it has
    requested the site root first, then the catalogue pages in
    increasing order, then every book address once, in some order. *)
Theorem scrape_books_run (n fuel : nat) (sched : nat -> nat) (is_save : bool)
  (max_pages : option Z) (w : World) (stop_by_cap : bool) :
  site_reachable w ->
  (n < fuel)%nat ->
  Forall (fun p => cap_reached max_pages p = false /\ is_Some (page_links w p))
    (page_range 1 n) ->
  (if stop_by_cap
   then cap_reached max_pages (1 + Z.of_nat n) = true
   else cap_reached max_pages (1 + Z.of_nat n) = false /\
        page_stops w (1 + Z.of_nat n)) ->
  fst (scrape_books urljoin fuel sched is_save max_pages w) <> OutOfFuel /\
  forall books : BookList,
    fst (scrape_books urljoin fuel sched is_save max_pages w) = Ok books ->
    books ≡ₚ omap (task_record w)
               (concat (map (page_urls urljoin w) (page_range 1 n))) /\
    exists order : list string,
      order ≡ₚ concat (map (page_urls urljoin w) (page_range 1 n)) /\
      requests
        (w_events (snd (scrape_books urljoin fuel sched is_save max_pages w)))
      = requests (w_events w)
          ++ BASE_URL
          :: map CATALOGUE_URL_TEMPLATE
               (page_range 1 (if stop_by_cap then n else S n))
          ++ order.
Proof.
  intros Hsite Hfuel Hpages Hend.
  pose proof (collect_urls_walk_net n fuel max_pages w stop_by_cap
                Hfuel Hpages Hend) as Hwalk.
  destruct (scrape_books_after_walk fuel sched is_save max_pages w _ _
              Hsite Hwalk) as (books' & w' & Hrun & Hperm & Hreq).
  rewrite Hrun. cbn [fst snd]. split; [done|].
  intros books [= <-]. split; [exact Hperm|].
  exists (as_completed sched
            (concat (map (page_urls urljoin w) (page_range 1 n)))).
  split; [apply as_completed_Permutation | exact Hreq].
Qed.

(** X19: with a negative page cap, a run on a reachable site requests
    the site root and nothing else, and returns the empty list. *)
Theorem scrape_books_negative_cap (m : Z) (fuel : nat) (sched : nat -> nat)
  (is_save : bool) (w : World) :
  site_reachable w ->
  m < 0 ->
  (0 < fuel)%nat ->
  exists w' : World,
    scrape_books urljoin fuel sched is_save (Some m) w = (Ok [], w') /\
    requests (w_events w') = requests (w_events w) ++ [BASE_URL].
Proof.
  intros Hsite Hm Hfuel.
  destruct (scrape_books_after_walk fuel sched is_save (Some m) w [] [])
    as (books & w' & Hrun & Hperm & Hreq); [done| |].
  - intros w2 Hnet2. exists w2. destruct fuel as [|fuel]; [lia|].
    cbn [collect_urls cap_reached].
    assert (negb (m =? 0) && (m <? 1) = true) as ->.
    { apply andb_true_iff. split.
      - apply negb_true_iff, Z.eqb_neq. lia.
      - apply Z.ltb_lt. lia. }
    split; [done|]. split; [done|]. by rewrite app_nil_r.
  - cbn in Hperm. apply Permutation_nil_r in Hperm as ->.
    exists w'. done.
Qed.

Lemma save_books_data_prints (book_list : BookList) (filename : string)
  (w : World) :
  has_nul filename = false ->
  exists m : message,
    w_events (snd (save_books_data book_list filename w))
    = w_events w ++ [EvPrint m].
Proof.
  intros Hnul.
  destruct (save_books_data_fault book_list filename w Hnul)
    as (w' & -> & _ & Hout).
  cbn [snd].
  destruct (save_fault (w_fs w) filename) as [e|]; [|destruct Hout as [Hout _]];
    by eexists.
Qed.

Lemma check_site_false_last (w : World) :
  fst (check_site w) = Ok false ->
  exists exc : exn,
    last (w_events (snd (check_site w))) = Some (EvPrint (MsgSiteUnavailable exc)).
Proof.
  rewrite check_site_run.
  destruct (w_net w BASE_URL) as [e|r];
    [destruct (is_RequestException e)
    |destruct ((400 <=? status_code r) && (status_code r <? 600))];
    cbn [fst snd w_events]; try done; intros _; eexists; apply last_snoc.
Qed.

(** X17: when a run ends with the line that says the data were saved,
    the file [artifacts/books_data.txt] holds the serialization of
    exactly the list the run returns: reading it back gives that list. *)
Theorem scrape_books_saved_round_trip (fuel : nat) (sched : nat -> nat)
  (is_save : bool) (max_pages : option Z) (w : World) (books : BookList) :
  fst (scrape_books urljoin fuel sched is_save max_pages w) = Ok books ->
  last (w_events (snd (scrape_books urljoin fuel sched is_save max_pages w)))
  = Some (EvPrint (MsgSaved (length books) "artifacts/books_data.txt")) ->
  exists text : string,
    fs_files (w_fs (snd (scrape_books urljoin fuel sched is_save max_pages w)))
      !! "artifacts/books_data.txt" = Some text /\
    json_loads text = Some books.
Proof.
  rewrite scrape_books_unfold.
  pose proof (check_site_false_last (snd (print MsgStart w))) as Hfalse.
  destruct (check_site _) as [[[]|e2|] w2]; cbn [fst snd] in *;
    [| |done|done].
  2:{ intros [= <-] Hlast. destruct (Hfalse eq_refl) as [exc Hexc].
      rewrite Hexc in Hlast. discriminate. }
  clear Hfalse.
  destruct (collect_urls urljoin fuel max_pages 1 [] w2)
    as [[[|u us]|e3|] w3]; cbn [fst snd]; [| |done|done].
  { intros [= <-]. cbn. rewrite last_snoc. discriminate. }
  destruct (collect_results _ _ _ _ _ _) as [[st|e5|] w5] eqn:Hrun;
    cbn [fst snd]; [|done|done].
  apply collect_results_complete in Hrun as [_ Hcomplete].
  intros [= <-].
  set (w6 := snd (print _ (snd (print _ (snd (print _ (snd (print _ w5)))))))).
  destruct (_ && _).
  - destruct (save_books_data_prints (fst st) "books_data.txt" w6 eq_refl)
      as [m Hm].
    intros Hlast. rewrite Hm, last_snoc in Hlast. injection Hlast as ->.
    exists (json_dumps (fst st)). split.
    + by apply (save_books_data_overwrites (fst st) "books_data.txt" w6).
    + apply json_loads_dumps. eapply Forall_impl; [exact Hcomplete|].
      by intros d (_ & ? & _).
  - subst w6. cbn. rewrite last_snoc. discriminate.
Qed.

Lemma omap_task_record_length (w : World) (urls : list string) :
  Forall (fun url => task_failed w url = false) urls ->
  length (omap (task_record w) urls) = length urls.
Proof.
  induction 1 as [|url urls Hurl _ IH]; [done|].
  cbn [omap list_omap]. fold (omap (task_record w) urls).
  unfold task_failed in Hurl.
  destruct (task_record w url); [|done]. cbn [length]. by rewrite IH.
Qed.

(** X22: under the same conditions, when the task of every address found
    returns data, the run comes to an end, and a run that returns
    returns as many records as the catalogue pages listed addresses,
    whatever the order of completion. *)
Theorem scrape_books_all_tasks_succeed (n fuel : nat) (sched : nat -> nat)
  (is_save : bool) (max_pages : option Z) (w : World) (stop_by_cap : bool) :
  site_reachable w ->
  (n < fuel)%nat ->
  Forall (fun p => cap_reached max_pages p = false /\ is_Some (page_links w p))
    (page_range 1 n) ->
  (if stop_by_cap
   then cap_reached max_pages (1 + Z.of_nat n) = true
   else cap_reached max_pages (1 + Z.of_nat n) = false /\
        page_stops w (1 + Z.of_nat n)) ->
  Forall (fun url => task_failed w url = false)
    (concat (map (page_urls urljoin w) (page_range 1 n))) ->
  fst (scrape_books urljoin fuel sched is_save max_pages w) <> OutOfFuel /\
  forall books : BookList,
    fst (scrape_books urljoin fuel sched is_save max_pages w) = Ok books ->
    length books
    = length (concat (map (page_urls urljoin w) (page_range 1 n))).
Proof.
  intros Hsite Hfuel Hpages Hend Hall.
  pose proof (collect_urls_walk_net n fuel max_pages w stop_by_cap
                Hfuel Hpages Hend) as Hwalk.
  destruct (scrape_books_after_walk fuel sched is_save max_pages w _ _
              Hsite Hwalk) as (books' & w' & -> & Hperm & _).
  cbn [fst]. split; [done|]. intros books [= <-].
  by rewrite (Permutation_length Hperm), omap_task_record_length.
Qed.

End Run.

(** ** [run_scraper] *)

Section RunScraper.

Variable urljoin : string -> string -> string.

(** X20: an exception of the session that is not a [RequestException],
    raised for the site root, leaves [scrape_books] as it is, and
    [run_scraper] absorbs it: it returns normally after printing the
    error line. *)
Theorem run_scraper_absorbs_session_fault (now : string) (fuel : nat)
  (sched : nat -> nat) (w : World) (e : exn) :
  w_net w BASE_URL = inl e ->
  is_RequestException e = false ->
  fst (scrape_books urljoin fuel sched true None w) = Raise e /\
  exists w' : World,
    run_scraper urljoin now fuel sched w
    = (Ok tt, w', [MsgRunStart now; MsgRunError e]).
Proof.
  intros Hnet He.
  assert (fst (scrape_books urljoin fuel sched true None w) = Raise e) as Hraise.
  { rewrite scrape_books_unfold, check_site_run. cbn [print emit snd w_net].
    by rewrite Hnet, He. }
  split; [done|]. unfold run_scraper.
  destruct (scrape_books urljoin fuel sched true None w) as [r w'].
  cbn [fst] in Hraise. subst r. cbn. by eexists.
Qed.

(** X21: when the reachability check of the site root fails,
    [run_scraper] returns normally with the line that says there are no
    data, after a single request and without touching the file system. *)
Theorem run_scraper_no_data (now : string) (fuel : nat) (sched : nat -> nat)
  (w : World) :
  fetch_fails w BASE_URL ->
  exists w' : World,
    run_scraper urljoin now fuel sched w
    = (Ok tt, w', [MsgRunStart now; MsgRunNoData]) /\
    requests (w_events w') = requests (w_events w) ++ [BASE_URL] /\
    w_fs w' = w_fs w.
Proof.
  intros Hfail. unfold run_scraper. rewrite scrape_books_unfold.
  set (w1 := snd (print MsgStart w)).
  assert (requests (w_events w1) = requests (w_events w)) as Hreq1.
  { subst w1. cbn. rewrite requests_app. cbn. by rewrite app_nil_r. }
  destruct (check_site_effects w1) as (_ & Hfs2 & Hreq2 & _ & _ & _ & Hfalse).
  assert (fst (check_site w1) = Ok false) as Hck by (by apply Hfalse).
  destruct (check_site w1) as [r2 w2]. cbn [fst snd] in *. subst r2.
  cbn [list_truthy]. exists w2. split; [done|]. split; [|done].
  by rewrite Hreq2, Hreq1.
Qed.

End RunScraper.

(** ** The properties at work on the sample site *)

Lemma scrape_books_raises_no_request_exception_witness :
  fst (scrape_books sample_urljoin 5 (fun _ => 0%nat) false None broken_world)
  = Raise (OtherException "UnicodeError") /\
  is_RequestException (OtherException "UnicodeError") = false.
Proof.
  assert (fst (scrape_books sample_urljoin 5 (fun _ => 0%nat) false None
                 broken_world)
          = Raise (OtherException "UnicodeError")) as H by reflexivity.
  split; [exact H|].
  exact (scrape_books_raises_no_request_exception sample_urljoin 5
           (fun _ => 0%nat) false None broken_world _ H).
Defined.

Lemma scrape_books_records_complete_witness :
  fst (scrape_books sample_urljoin 5 (fun _ => 0%nat) false (Some 1) sample_world)
  = Ok [book_record sample_book book1_url] /\
  Forall complete_record [book_record sample_book book1_url].
Proof.
  assert (fst (scrape_books sample_urljoin 5 (fun _ => 0%nat) false (Some 1)
                 sample_world)
          = Ok [book_record sample_book book1_url]) as H
    by (vm_compute; reflexivity).
  split; [exact H|].
  exact (scrape_books_records_complete sample_urljoin 5 (fun _ => 0%nat) false
           (Some 1) sample_world _ H).
Defined.

Lemma sample_site_reachable : site_reachable sample_world.
Proof.
  exists (mkResponse 200 empty_soup). split; [reflexivity|].
  unfold error_status. cbn. lia.
Qed.

Lemma scrape_books_run_witness :
  site_reachable sample_world /\
  Forall (fun p => cap_reached (Some 1) p = false /\
                   is_Some (page_links sample_world p)) (page_range 1 1) /\
  cap_reached (Some 1) (1 + Z.of_nat 1) = true /\
  fst (scrape_books sample_urljoin 5 (fun _ => 0%nat) false (Some 1) sample_world)
  = Ok [book_record sample_book book1_url] /\
  [book_record sample_book book1_url]
  ≡ₚ omap (task_record sample_world)
       (concat (map (page_urls sample_urljoin sample_world) (page_range 1 1))) /\
  exists order : list string,
    order ≡ₚ concat (map (page_urls sample_urljoin sample_world)
                       (page_range 1 1)) /\
    requests
      (w_events (snd (scrape_books sample_urljoin 5 (fun _ => 0%nat) false
                        (Some 1) sample_world)))
    = requests (w_events sample_world)
        ++ BASE_URL :: map CATALOGUE_URL_TEMPLATE (page_range 1 1) ++ order.
Proof.
  assert (1 < 5)%nat as Hfuel by lia.
  assert (Forall (fun p => cap_reached (Some 1) p = false /\
                           is_Some (page_links sample_world p))
            (page_range 1 1)) as Hpages.
  { apply Forall_cons. split; [split; [reflexivity | by eexists]|].
    apply Forall_nil_2. }
  assert (fst (scrape_books sample_urljoin 5 (fun _ => 0%nat) false (Some 1)
                 sample_world)
          = Ok [book_record sample_book book1_url]) as Hrun
    by (vm_compute; reflexivity).
  split; [exact sample_site_reachable|]. split; [exact Hpages|].
  split; [reflexivity|]. split; [exact Hrun|].
  exact (proj2 (scrape_books_run sample_urljoin 1 5 (fun _ => 0%nat) false
                  (Some 1) sample_world true sample_site_reachable Hfuel Hpages
                  eq_refl) _ Hrun).
Defined.

Lemma scrape_books_saved_round_trip_witness :
  fst (scrape_books sample_urljoin 5 (fun _ => 0%nat) true (Some 1) sample_world)
  = Ok [book_record sample_book book1_url] /\
  exists text : string,
    fs_files
      (w_fs (snd (scrape_books sample_urljoin 5 (fun _ => 0%nat) true (Some 1)
                    sample_world)))
      !! "artifacts/books_data.txt" = Some text /\
    json_loads text = Some [book_record sample_book book1_url].
Proof.
  assert (fst (scrape_books sample_urljoin 5 (fun _ => 0%nat) true (Some 1)
                 sample_world)
          = Ok [book_record sample_book book1_url]) as H
    by (vm_compute; reflexivity).
  split; [exact H|].
  apply (scrape_books_saved_round_trip sample_urljoin 5 (fun _ => 0%nat) true
           (Some 1) sample_world _ H).
  vm_compute. reflexivity.
Defined.

Lemma scrape_books_ends_with_cap_witness :
  0 < 1 /\ (Z.to_nat 1 < 5)%nat /\
  fst (scrape_books sample_urljoin 5 (fun _ => 0%nat) false (Some 1) sample_world)
  <> OutOfFuel.
Proof.
  assert (0 < 1) as H0 by lia.
  assert (Z.to_nat 1 < 5)%nat as H1 by (cbn; lia).
  split; [exact H0|]. split; [exact H1|].
  exact (scrape_books_ends_with_cap sample_urljoin 1 5 (fun _ => 0%nat) false
           sample_world H0 H1).
Defined.

Lemma scrape_books_negative_cap_witness :
  site_reachable sample_world /\ -1 < 0 /\ (0 < 5)%nat /\
  exists w' : World,
    scrape_books sample_urljoin 5 (fun _ => 0%nat) true (Some (-1)) sample_world
    = (Ok [], w') /\
    requests (w_events w') = requests (w_events sample_world) ++ [BASE_URL].
Proof.
  assert (-1 < 0) as H0 by lia.
  assert (0 < 5)%nat as H1 by lia.
  split; [exact sample_site_reachable|]. split; [exact H0|]. split; [exact H1|].
  exact (scrape_books_negative_cap sample_urljoin (-1) 5 (fun _ => 0%nat) true
           sample_world sample_site_reachable H0 H1).
Defined.

Lemma run_scraper_absorbs_session_fault_witness :
  w_net broken_world BASE_URL = inl (OtherException "UnicodeError") /\
  is_RequestException (OtherException "UnicodeError") = false /\
  fst (scrape_books sample_urljoin 5 (fun _ => 0%nat) true None broken_world)
  = Raise (OtherException "UnicodeError") /\
  exists w' : World,
    run_scraper sample_urljoin "12:00:00" 5 (fun _ => 0%nat) broken_world
    = (Ok tt, w',
       [MsgRunStart "12:00:00"; MsgRunError (OtherException "UnicodeError")]).
Proof.
  split; [reflexivity|]. split; [reflexivity|].
  exact (run_scraper_absorbs_session_fault sample_urljoin "12:00:00" 5
           (fun _ => 0%nat) broken_world (OtherException "UnicodeError")
           eq_refl eq_refl).
Defined.

Lemma run_scraper_no_data_witness :
  fetch_fails offline_world BASE_URL /\
  exists w' : World,
    run_scraper sample_urljoin "12:00:00" 5 (fun _ => 0%nat) offline_world
    = (Ok tt, w', [MsgRunStart "12:00:00"; MsgRunNoData]) /\
    requests (w_events w') = requests (w_events offline_world) ++ [BASE_URL] /\
    w_fs w' = w_fs offline_world.
Proof.
  split; [reflexivity|].
  exact (run_scraper_no_data sample_urljoin "12:00:00" 5 (fun _ => 0%nat)
           offline_world eq_refl).
Defined.

Lemma stocked_site_reachable : site_reachable stocked_world.
Proof.
  exists (mkResponse 200 empty_soup). split; [reflexivity|].
  unfold error_status. cbn. lia.
Qed.

Lemma scrape_books_all_tasks_succeed_witness :
  site_reachable stocked_world /\
  Forall (fun url => task_failed stocked_world url = false)
    (concat (map (page_urls sample_urljoin stocked_world) (page_range 1 1))) /\
  fst (scrape_books sample_urljoin 5 (fun _ => 1%nat) false (Some 1)
         stocked_world)
  = Ok [book_record sample_book book2_url; book_record sample_book book1_url] /\
  length [book_record sample_book book2_url; book_record sample_book book1_url]
  = length (concat (map (page_urls sample_urljoin stocked_world)
                      (page_range 1 1))).
Proof.
  assert (1 < 5)%nat as Hfuel by lia.
  assert (Forall (fun p => cap_reached (Some 1) p = false /\
                           is_Some (page_links stocked_world p))
            (page_range 1 1)) as Hpages.
  { apply Forall_cons. split; [split; [reflexivity | by eexists]|].
    apply Forall_nil_2. }
  assert (Forall (fun url => task_failed stocked_world url = false)
            (concat (map (page_urls sample_urljoin stocked_world)
                       (page_range 1 1)))) as Hall.
  { repeat (apply Forall_cons; split; [vm_compute; reflexivity|]).
    apply Forall_nil_2. }
  assert (fst (scrape_books sample_urljoin 5 (fun _ => 1%nat) false (Some 1)
                 stocked_world)
          = Ok [book_record sample_book book2_url;
                book_record sample_book book1_url]) as Hrun
    by (vm_compute; reflexivity).
  split; [exact stocked_site_reachable|]. split; [exact Hall|].
  split; [exact Hrun|].
  exact (proj2 (scrape_books_all_tasks_succeed sample_urljoin 1 5
                  (fun _ => 1%nat) false (Some 1) stocked_world true
                  stocked_site_reachable Hfuel Hpages eq_refl Hall) _ Hrun).
Defined.
